(** * The Solana JSON-RPC client of pkg/rpc/client.go

    A shallow embedding of the client: the envelope codec [getResponse],
    the six typed methods, the two TTL-bounded cache slots and the
    connection probe [TestConnection].

    Go code that talks to the network, reads the clock and mutates the
    receiver is written in a state monad over a record [St] that holds the
    client object (the pointee of [c *Client]) together with the outside
    world: the clock, the answers the transport is going to give, and the
    trace of what the client did (HTTP exchanges, timers armed, mutex
    operations, log lines).  Go's [(value, error)] returns are kept as
    pairs whose second component is [None] for a nil error.

    The model follows one caller at a time: the operations on
    [cacheMutex] are recorded in the trace and never block.  The text of
    JSON is left to the [Runtime] and [Unmarshal] interfaces; a log line
    is recorded by its level and its template. *)

From Stdlib Require Import Init.Byte Ascii String.
From stdpp Require Import prelude strings gmap pretty.

Local Open Scope string_scope.
Local Open Scope list_scope.
Local Open Scope Z_scope.

(** ** package time *)

(** Instants and durations are counted in nanoseconds.  A [Duration] is an
    int64: products wrap around, and the difference of two instants
    saturates, as [Time.Sub] does. *)
Definition Time := Z.
Definition Duration := Z.

Definition minDuration : Duration := - 2 ^ 63.
Definition maxDuration : Duration := 2 ^ 63 - 1.

Definition wrap64 (z : Z) : Z := (z + 2 ^ 63) `mod` 2 ^ 64 - 2 ^ 63.

Definition Duration_mul (a b : Duration) : Duration := wrap64 (a * b).

Definition time_Second : Duration := 1000000000.

Definition time_Sub (t u : Time) : Duration :=
  Z.max minDuration (Z.min maxDuration (t - u)).

(** ** errors *)

(** The operands of a [fmt.Errorf] call other than the one bound to [%w]. *)
Inductive operand :=
  | OpString (s : string)
  | OpInt (n : Z).

(** Modelled from the spec: the declaration of [RPCError] is not in
    client.go; the data model gives it a code, a message and the method
    name that the client fills in after decoding. *)
Module RPCError.
Record t := mk { Message : string; Code : Z; Method : string }.
Definition withMethod (e : t) (m : string) : t :=
  {| Message := Message e; Code := Code e; Method := m |}.
End RPCError.
Abbreviation RPCError := RPCError.t.

#[warnings="-register-all"]
Inductive err :=
  | LibError (msg : string)            (* an error made by net/http, io, encoding/json, net/url *)
  | Canceled                           (* context.Canceled *)
  | DeadlineExceeded                   (* context.DeadlineExceeded *)
  | Errorf (format : string) (operands : list operand) (wrapped : option err)
  | RPCErr (e : RPCError).             (* a *RPCError returned as an error *)

(** A Go [error] value; [None] is nil. *)
Abbreviation error := (option err).

Definition errors_Unwrap (e : err) : error :=
  match e with
  | Errorf _ _ w => w
  | _ => None
  end.

(** ** package context *)

(** A context is done from the instant [done_at] on (never, for [None]);
    once done, [Err] reports [cause]. *)
Inductive ctx_cause := CauseCanceled | CauseDeadline.

Record Context := { done_at : option Time; cause : ctx_cause }.

Definition cause_err (k : ctx_cause) : err :=
  match k with
  | CauseCanceled => Canceled
  | CauseDeadline => DeadlineExceeded
  end.

Definition ctx_Done (ctx : Context) (t : Time) : bool :=
  match done_at ctx with
  | Some tc => (tc <=? t)%Z
  | None => false
  end.

Definition ctx_Err (ctx : Context) (t : Time) : error :=
  if ctx_Done ctx t then Some (cause_err (cause ctx)) else None.

(** ** the wire types of client.go *)

(** The values that client.go puts in a [[]any] parameter list: an int64
    slot and a [map[string]string] configuration object. *)
Inductive any :=
  | AnyInt64 (n : Z)
  | AnyMap (m : gmap string string).

Record Request := {
  Jsonrpc : string;
  Id : Z;
  Method : string;
  Params : list any
}.

Definition Commitment := string.
Definition CommitmentFinalized : Commitment := "finalized".
Definition CommitmentConfirmed : Commitment := "confirmed".
Definition CommitmentProcessed : Commitment := "processed".

Definition LamportsInSol : Z := 1000000000.

(** Modelled from the spec: the declaration of [Response] is not in
    client.go; the data model gives it a result of the requested type and
    an [RPCError] whose zero code means that there is no error. *)
Record Response (T : Type) := mkResponse { Result : T; Error : RPCError }.
Arguments mkResponse {T} _ _.
Arguments Result {T} _.
Arguments Error {T} _.

(** The anonymous result struct of [GetVersion]. *)
Record VersionResult := { Version : string }.

(** Go's zero values. *)
Class Zero (T : Type) := zero : T.
Global Instance Zero_int64 : Zero Z := 0.
Global Instance Zero_string : Zero string := "".
Global Instance Zero_RPCError : Zero RPCError :=
  {| RPCError.Message := ""; RPCError.Code := 0; RPCError.Method := "" |}.
Global Instance Zero_VersionResult : Zero VersionResult := {| Version := "" |}.
Global Instance Zero_Response {T} `{Zero T} : Zero (Response T) :=
  {| Result := zero; Error := zero |}.

(** ** packages net and net/http *)

Module net.
Record Dialer := { Timeout : Duration; KeepAlive : Duration }.
End net.

Module http.
Record Transport := {
  DialContext : net.Dialer;
  MaxIdleConns : Z;
  MaxIdleConnsPerHost : Z;
  IdleConnTimeout : Duration
}.

Record Client := { Transport_ : Transport; Timeout : Duration }.

Record Request := {
  Ctx : Context;
  Method : string;
  URL : string;
  Hdr : gmap string (list string);
  Body : list byte
}.

Definition Header_Set (req : Request) (key value : string) : Request :=
  {| Ctx := Ctx req; Method := Method req; URL := URL req;
     Hdr := <[key := [value]]> (Hdr req); Body := Body req |}.

(** A response is kept as what reading its body to the end gives. *)
Record Response := { ReadAll : list byte * error }.
End http.

(** What encoding/json and net/url do is not part of the repository: the
    development is parametric in them. *)
Class Runtime := {
  json_Marshal : Request -> list byte * error;
  url_Parse : string -> error
}.

(** [json.Unmarshal(body, rpcResponse)] for a [*Response[T]]: the pointee
    after the call and the error. *)
Class Unmarshal (T : Type) :=
  json_Unmarshal : list byte -> Response T -> Response T * error.

(** [http.NewRequestWithContext]: fails when the URL does not parse. *)
Definition http_NewRequestWithContext {runtime : Runtime}
    (ctx : Context) (method url : string) (body : list byte)
  : http.Request + err :=
  match url_Parse url with
  | Some e => inr e
  | None =>
      inl {| http.Ctx := ctx; http.Method := method; http.URL := url;
             http.Hdr := ∅; http.Body := body |}
  end.

(** ** the client object *)

Record cachedValue (T : Type) := { value : T; timestamp : Time }.
Arguments value {T} _.
Arguments timestamp {T} _.

(** A [*zap.SugaredLogger]; only its presence matters to the client. *)
Inductive SugaredLogger := zapLogger.

Record Client := {
  HttpClient : http.Client;
  RpcUrl : string;
  HttpTimeout : Duration;
  logger : option SugaredLogger;
  (* cacheMutex has no state of its own here: its operations are events *)
  versionCache : option (cachedValue string);
  healthCache : option (cachedValue string);
  cacheValidity : Duration
}.

(** ** the world and the monad *)

Inductive Level := LvlDebug | LvlWarn | LvlError.
Inductive MutexOp := RLock | RUnlock | Lock | Unlock.

Inductive Event :=
  | EvLog (lvl : Level) (template : string)
  | EvMutex (op : MutexOp)
  | EvDo (req : http.Request)
  | EvAfter (d : Duration).

(** One HTTP exchange as the transport is going to answer it: how long it
    takes, and the response or the error of [HttpClient.Do]. *)
Inductive Reply :=
  | Failed (e : err)
  | Served (resp : http.Response).

Record Exchange := { latency : N; reply : Reply }.

Record St := {
  self : Client;             (* the pointee of c *Client *)
  now : Time;                (* the clock *)
  script : list Exchange;    (* the answers to the coming exchanges *)
  picks : list bool;         (* select's choices when both cases are ready:
                                true takes the ctx.Done case *)
  trace : list Event         (* what the client did, oldest first *)
}.

Definition M (A : Type) : Type := St -> A * St.

Definition ret {A} (a : A) : M A := fun s => (a, s).

Definition bind {A B} (m : M A) (k : A -> M B) : M B :=
  fun s => let (a, s') := m s in k a s'.

Notation "'let*' p ':=' m 'in' k" := (bind m (fun p => k))
  (at level 10, p pattern, m at level 200, k at level 200,
   format "'[v' 'let*'  p  ':='  m  'in' '/' k ']'").
Notation "m ;; k" := (bind m (fun _ => k))
  (at level 100, k at level 200, right associativity).

Definition when (b : bool) (m : M unit) : M unit := if b then m else ret tt.

Definition non_nil {A} (p : option A) : bool :=
  match p with Some _ => true | None => false end.

(** *** primitive actions *)

Definition emit (e : Event) : M unit := fun s =>
  (tt, {| self := self s; now := now s; script := script s;
          picks := picks s; trace := trace s ++ [e] |}).

Definition the_client : M Client := fun s => (self s, s).

Definition store (f : Client -> Client) : M unit := fun s =>
  (tt, {| self := f (self s); now := now s; script := script s;
          picks := picks s; trace := trace s |}).

Definition time_Now : M Time := fun s => (now s, s).

Definition time_Since (t : Time) : M Duration :=
  let* n := time_Now in ret (time_Sub n t).

Definition context_Err (ctx : Context) : M error :=
  let* n := time_Now in ret (ctx_Err ctx n).

Definition cacheMutex (op : MutexOp) : M unit := emit (EvMutex op).

Definition Debug (msg : string) : M unit := emit (EvLog LvlDebug msg).
Definition Debugf (template : string) : M unit := emit (EvLog LvlDebug template).
Definition Debugw (msg : string) : M unit := emit (EvLog LvlDebug msg).
Definition Warnf (template : string) : M unit := emit (EvLog LvlWarn template).
Definition Errorf_log (template : string) : M unit := emit (EvLog LvlError template).

(** The answer to an exchange when the script has run out. *)
Definition refused : Exchange :=
  {| latency := 0; reply := Failed (LibError "connection refused") |}.

(** [client.HttpClient.Do(req)]: the exchange is recorded, the clock moves
    on by its latency, and the transport's next answer is consumed.  A
    timeout or a cancelled context is one of the errors the transport can
    answer with.

    An exchange is one call of [Do] with what it returns.  What net/http
    does inside the call is not modelled: it may follow redirects and so
    send several requests, or send none (under a context that is already
    done it returns the context's error at once).  The script ranges
    over every answer a call can get, these included. *)
Definition HttpClient_Do (req : http.Request) : M (http.Response + err) := fun s =>
  let x := hd refused (script s) in
  let s' := {| self := self s; now := now s + Z.of_N (latency x);
               script := tl (script s); picks := picks s;
               trace := trace s ++ [EvDo req] |} in
  match reply x with
  | Failed e => (inr e, s')
  | Served resp => (inl resp, s')
  end.

(** [select { case <-ctx.Done(): ... case <-time.After(d): ... }].  The
    timer is ready at [now + max 0 d], the context from [done_at] on; the
    case that is ready first is taken and the clock moves to that instant.
    When both are ready at the same instant the choice is the scheduler's
    ([picks]; the timer case when [picks] has run out). *)
Inductive selected := CaseDone | CaseAfter.

Definition select_Done_After (ctx : Context) (d : Duration) : M selected := fun s =>
  let fire := now s + Z.max 0 d in
  let resume (t : Time) (ps : list bool) :=
    {| self := self s; now := t; script := script s; picks := ps;
       trace := trace s ++ [EvAfter d] |} in
  match done_at ctx with
  | None => (CaseAfter, resume fire (picks s))
  | Some tc =>
      let ready := Z.max (now s) tc in
      if ready <? fire then (CaseDone, resume ready (picks s))
      else if fire <? ready then (CaseAfter, resume fire (picks s))
      else match picks s with
           | true :: ps => (CaseDone, resume fire ps)
           | false :: ps => (CaseAfter, resume fire ps)
           | [] => (CaseAfter, resume fire [])
           end
  end.

(** ** client.go *)

Section Client.

Context {runtime : Runtime}.
(** The declaration of [EpochInfo] is not in client.go; any type with a
    zero value and a decoder will do. *)
Context {EpochInfo : Type}.
Context {unmarshal_int64 : Unmarshal Z}
        {unmarshal_string : Unmarshal string}
        {unmarshal_version : Unmarshal VersionResult}
        {unmarshal_epoch : Unmarshal EpochInfo}
        {zero_epoch : Zero EpochInfo}.
(** What [slog.Get()] returns (package slog is not in client.go). *)
Variable slog_Get : option SugaredLogger.

Definition NewRPCClient (rpcAddr : string) (httpTimeout : Duration) : Client :=
  let transport :=
    {| http.DialContext :=
         {| net.Timeout := Duration_mul 5 time_Second;
            net.KeepAlive := Duration_mul 30 time_Second |};
       http.MaxIdleConns := 100;
       http.MaxIdleConnsPerHost := 100;
       http.IdleConnTimeout := Duration_mul 90 time_Second |} in
  {| HttpClient := {| http.Transport_ := transport; http.Timeout := httpTimeout |};
     RpcUrl := rpcAddr;
     HttpTimeout := httpTimeout;
     logger := slog_Get;
     versionCache := None;
     healthCache := None;
     cacheValidity := Duration_mul 60 time_Second |}.

(** [getResponse(ctx, client, method, params, rpcResponse)].  The client
    is the one of the state; the pointee of [rpcResponse] after the call
    is returned next to the error. *)
Definition getResponse {T} `{Unmarshal T}
    (ctx : Context) (method : string) (params : list any)
    (rpcResponse : Response T) : M (Response T * error) :=
  let* client := the_client in
  let request :=
    {| Jsonrpc := "2.0"; Id := 1; Method := method; Params := params |} in
  match json_Marshal request with
  | (_, Some e) =>
      ret (rpcResponse, Some (Errorf "failed to marshal request: %w" [] (Some e)))
  | (buffer, None) =>
  when (non_nil (logger client)) (Debugf "Making RPC request to %s: %s") ;;
  match http_NewRequestWithContext ctx "POST" (RpcUrl client) buffer with
  | inr e =>
      ret (rpcResponse, Some (Errorf "failed to create request: %w" [] (Some e)))
  | inl req =>
  let req := http.Header_Set req "Content-Type" "application/json" in
  let* start := time_Now in
  let* r := HttpClient_Do req in
  match r with
  | inr e =>
      when (non_nil (logger client)) (Errorf_log "RPC request failed: %v") ;;
      ret (rpcResponse,
           Some (Errorf "%s RPC call failed: %w" [OpString method] (Some e)))
  | inl resp =>
  (* defer resp.Body.Close() *)
  (if non_nil (logger client)
   then let* duration := time_Since start in Debugw "RPC request completed"
   else ret tt) ;;
  match http.ReadAll resp with
  | (_, Some e) =>
      ret (rpcResponse, Some (Errorf "error reading response: %w" [] (Some e)))
  | (body, None) =>
  when (non_nil (logger client)) (Debugf "RPC response: %s") ;;
  match json_Unmarshal body rpcResponse with
  | (rpcResponse, Some e) =>
      ret (rpcResponse, Some (Errorf "failed to decode response: %w" [] (Some e)))
  | (rpcResponse, None) =>
  if negb (RPCError.Code (Error rpcResponse) =? 0) then
    let rpcResponse :=
      {| Result := Result rpcResponse;
         Error := RPCError.withMethod (Error rpcResponse) method |} in
    ret (rpcResponse, Some (RPCErr (Error rpcResponse)))
  else
    ret (rpcResponse, None)
  end end end end end.

(** *** Core RPC methods *)

Definition GetBlockTime (ctx : Context) (slot : Z) : M (Z * error) :=
  let resp : Response Z := zero in
  let* (resp, err) := getResponse ctx "getBlockTime" [AnyInt64 slot] resp in
  match err with
  | Some e => ret (0, Some e)
  | None => ret (Result resp, None)
  end.

(** The result is a [*EpochInfo]: [None] is the nil pointer. *)
Definition GetEpochInfo (ctx : Context) (commitment : Commitment)
  : M (option EpochInfo * error) :=
  let resp : Response EpochInfo := zero in
  let config : gmap string string := {[ "commitment" := commitment ]} in
  let* (resp, err) := getResponse ctx "getEpochInfo" [AnyMap config] resp in
  match err with
  | Some e => ret (None, Some e)
  | None => ret (Some (Result resp), None)
  end.

(** The condition [slot != nil && time.Since(slot.timestamp) < validity]
    of the cache check, with the cached value when it holds. *)
Definition cache_hit (slot : option (cachedValue string)) (validity : Duration)
  : M (option string) :=
  match slot with
  | None => ret None
  | Some cv =>
      let* age := time_Since (timestamp cv) in
      ret (if age <? validity then Some (value cv) else None)
  end.

Definition set_versionCache (v : option (cachedValue string)) (c : Client) : Client :=
  {| HttpClient := HttpClient c; RpcUrl := RpcUrl c; HttpTimeout := HttpTimeout c;
     logger := logger c; versionCache := v; healthCache := healthCache c;
     cacheValidity := cacheValidity c |}.

Definition set_healthCache (v : option (cachedValue string)) (c : Client) : Client :=
  {| HttpClient := HttpClient c; RpcUrl := RpcUrl c; HttpTimeout := HttpTimeout c;
     logger := logger c; versionCache := versionCache c; healthCache := v;
     cacheValidity := cacheValidity c |}.

Definition GetVersion (ctx : Context) : M (string * error) :=
  (* Check cache first *)
  cacheMutex RLock ;;
  let* c := the_client in
  let* hit := cache_hit (versionCache c) (cacheValidity c) in
  match hit with
  | Some version =>
      cacheMutex RUnlock ;;
      when (non_nil (logger c)) (Debug "Version returned from cache") ;;
      ret (version, None)
  | None =>
  cacheMutex RUnlock ;;
  let resp : Response VersionResult := zero in
  let* (resp, err) := getResponse ctx "getVersion" [] resp in
  match err with
  | Some e => ret ("", Some e)
  | None =>
  (* Update cache *)
  cacheMutex Lock ;;
  let* t := time_Now in
  store (set_versionCache
           (Some {| value := Version (Result resp); timestamp := t |})) ;;
  cacheMutex Unlock ;;
  ret (Version (Result resp), None)
  end end.

Definition GetHealth (ctx : Context) : M (string * error) :=
  (* Check cache first *)
  cacheMutex RLock ;;
  let* c := the_client in
  let* hit := cache_hit (healthCache c) (cacheValidity c) in
  match hit with
  | Some health =>
      cacheMutex RUnlock ;;
      when (non_nil (logger c)) (Debug "Health status returned from cache") ;;
      ret (health, None)
  | None =>
  cacheMutex RUnlock ;;
  let resp : Response string := zero in
  let* (resp, err) := getResponse ctx "getHealth" [] resp in
  match err with
  | Some e => ret ("", Some e)
  | None =>
  (* Update cache *)
  cacheMutex Lock ;;
  let* t := time_Now in
  store (set_healthCache (Some {| value := Result resp; timestamp := t |})) ;;
  cacheMutex Unlock ;;
  ret (Result resp, None)
  end end.

Definition GetMinimumLedgerSlot (ctx : Context) : M (Z * error) :=
  let resp : Response Z := zero in
  let* (resp, err) := getResponse ctx "minimumLedgerSlot" [] resp in
  match err with
  | Some e => ret (0, Some e)
  | None => ret (Result resp, None)
  end.

Definition GetFirstAvailableBlock (ctx : Context) : M (Z * error) :=
  let resp : Response Z := zero in
  let* (resp, err) := getResponse ctx "getFirstAvailableBlock" [] resp in
  match err with
  | Some e => ret (0, Some e)
  | None => ret (Result resp, None)
  end.

(** *** The connection probe *)

(** The [for i := 0; i < maxRetries; i++] loop, by recursion on the
    number [remaining] of iterations still to run, [maxRetries - i]:
    with none left the loop condition is false and the statement after
    the loop runs. *)
Fixpoint TestConnection_loop (ctx : Context) (maxRetries : Z) (remaining : nat)
    (i : Z) (retryDelay : Duration) (lastErr : error) : M error :=
  match remaining with
  | O =>
      ret (Some (Errorf "failed to connect after %d attempts: %w"
                   [OpInt maxRetries] lastErr))
  | S remaining =>
      let* (_, err) := GetVersion ctx in
      match err with
      | None => ret None
      | Some _ =>
      let lastErr := err in
      let* c := the_client in
      when (non_nil (logger c)) (Warnf "Connection attempt %d/%d failed: %v") ;;
      if i <? maxRetries - 1 then (* Don't sleep after the last attempt *)
        let* sel := select_Done_After ctx retryDelay in
        match sel with
        | CaseDone => context_Err ctx
        | CaseAfter =>
            let retryDelay := Duration_mul retryDelay 2 in (* Exponential backoff *)
            TestConnection_loop ctx maxRetries remaining (i + 1) retryDelay lastErr
        end
      else
        TestConnection_loop ctx maxRetries remaining (i + 1) retryDelay lastErr
      end
  end.

Definition TestConnection (ctx : Context) : M error :=
  let maxRetries := 3 in
  let retryDelay := Duration_mul time_Second 2 in
  let lastErr : error := None in
  TestConnection_loop ctx maxRetries (Z.to_nat maxRetries) 0 retryDelay lastErr.

End Client.

(** ** Observations on a run *)

(** The HTTP requests handed to [HttpClient.Do] and the durations of the
    timers armed, in the order of the trace. *)
Definition exchanges (tr : list Event) : list http.Request :=
  omap (fun e => match e with EvDo req => Some req | _ => None end) tr.

Definition timers (tr : list Event) : list Duration :=
  omap (fun e => match e with EvAfter d => Some d | _ => None end) tr.

(** The request that lines 131-136 of [getResponse] hand to the transport
    for a marshalled [body]. *)
Definition post (ctx : Context) (url : string) (body : list byte) : http.Request :=
  http.Header_Set
    {| http.Ctx := ctx; http.Method := "POST"; http.URL := url;
       http.Hdr := ∅; http.Body := body |}
    "Content-Type" "application/json".

(** What a [Request] value puts on the wire when client [c] sends it:
    one POST of its encoding, or nothing when it cannot be encoded or
    the URL of [c] does not parse. *)
Definition wire {runtime : Runtime} (ctx : Context) (c : Client) (request : Request)
  : list http.Request :=
  match json_Marshal request, url_Parse (RpcUrl c) with
  | (buffer, None), None => [post ctx (RpcUrl c) buffer]
  | _, _ => []
  end.

(** The state after the warning that the probe logs when the version
    fetch has failed in state [s]. *)
Definition warned (s : St) : St :=
  snd (when (non_nil (logger (self s)))
            (Warnf "Connection attempt %d/%d failed: %v") s).

(** The state in which the select of the probe leaves the world, from
    the state [s] in which the version fetch failed: the warning is
    logged, and the timer of [d] is armed and raced against the
    context. *)
Definition backoff (ctx : Context) (d : Duration) (s : St) : St :=
  snd (select_Done_After ctx d (warned s)).

(** The state in which a cached method finds the world after its cache
    check has missed: the read lock was taken and released. *)
Definition missed (s : St) : St :=
  snd ((cacheMutex RLock ;; cacheMutex RUnlock) s).

(** The response that the coming exchange decodes to: present when the
    request can be encoded, the URL parses, and the transport's next
    answer is a response whose body is read in full and decoded without
    error into [rpcResponse]. *)
Definition decodes {runtime : Runtime} {T} {U : Unmarshal T}
    (s : St) (request : Request) (rpcResponse : Response T) : option (Response T) :=
  match json_Marshal request, url_Parse (RpcUrl (self s)), script s with
  | (_, None), None, x :: _ =>
      match reply x with
      | Served resp =>
          match http.ReadAll resp with
          | (body, None) =>
              match json_Unmarshal body rpcResponse with
              | (decoded, None) => Some decoded
              | _ => None
              end
          | _ => None
          end
      | Failed _ => None
      end
  | _, _, _ => None
  end.

(** The state a cache hit leaves, and the one a successful refresh
    leaves from the state [s1] in which the codec returned. *)
Definition after_hit (msg : string) (s : St) : St :=
  snd ((cacheMutex RLock ;; cacheMutex RUnlock ;;
        when (non_nil (logger (self s))) (Debug msg)) s).

Definition after_store (set : option (cachedValue string) → Client → Client)
    (v : string) (s1 : St) : St :=
  snd ((cacheMutex Lock ;;
        let* t := time_Now in
        store (set (Some {| value := v; timestamp := t |})) ;;
        cacheMutex Unlock) s1).

(** Between [s] and [s'] the transport was used at most once: either no
    request went out and no answer was consumed, or exactly one of each. *)
Definition at_most_one_exchange (s s' : St) : Prop :=
  (exchanges (trace s') = exchanges (trace s) ∧ script s' = script s) ∨
  (∃ req, exchanges (trace s') = exchanges (trace s) ++ [req] ∧
          script s' = tl (script s)).

(** Client [c'] is client [c] but for the named cache slot. *)
Definition same_but_versionCache (c c' : Client) : Prop :=
  HttpClient c' = HttpClient c ∧ RpcUrl c' = RpcUrl c ∧
  HttpTimeout c' = HttpTimeout c ∧ logger c' = logger c ∧
  healthCache c' = healthCache c ∧ cacheValidity c' = cacheValidity c.

Definition same_but_healthCache (c c' : Client) : Prop :=
  HttpClient c' = HttpClient c ∧ RpcUrl c' = RpcUrl c ∧
  HttpTimeout c' = HttpTimeout c ∧ logger c' = logger c ∧
  versionCache c' = versionCache c ∧ cacheValidity c' = cacheValidity c.

(** The cache check of lines 198 and 229 as a predicate of the slot, the
    TTL and the clock. *)
Definition fresh (slot : option (cachedValue string)) (validity : Duration)
    (t : Time) : bool :=
  match slot with
  | Some cv => time_Sub t (timestamp cv) <? validity
  | None => false
  end.

(** ** Further observations *)


(** *** The discipline of [cacheMutex]

    The [sync.RWMutex] as the one caller of the model holds it: not at
    all, for reading, or for writing.  A lock is taken only by a caller
    that holds none (a second [RLock] or [Lock] inside a held lock has
    no next state, so that locks are never nested), and released only by
    the operation that matches the lock held (Go panics on the release
    of a lock that is not held). *)
Inductive RWMutex := Free | ReadHeld | WriteHeld.

Definition unlocked : RWMutex := Free.

Definition is_unlocked (m : RWMutex) : bool :=
  match m with
  | Free => true
  | _ => false
  end.

Definition mutex_step (m : RWMutex) (op : MutexOp) : option RWMutex :=
  match op, m with
  | RLock, Free => Some ReadHeld
  | RUnlock, ReadHeld => Some Free
  | Lock, Free => Some WriteHeld
  | Unlock, WriteHeld => Some Free
  | _, _ => None
  end.

(** The mutex after the events of [tr], from [m]: every mutex operation
    must be possible, and an HTTP exchange or a timer wait must find the
    mutex free. *)
Fixpoint disciplined (m : RWMutex) (tr : list Event) : option RWMutex :=
  match tr with
  | [] => Some m
  | EvMutex op :: tr =>
      match mutex_step m op with
      | Some m' => disciplined m' tr
      | None => None
      end
  | EvLog _ _ :: tr => disciplined m tr
  | EvDo _ :: tr => if is_unlocked m then disciplined m tr else None
  | EvAfter _ :: tr => if is_unlocked m then disciplined m tr else None
  end.

(** *** A client without a logger *)

Definition set_logger (l : option SugaredLogger) (c : Client) : Client :=
  {| HttpClient := HttpClient c; RpcUrl := RpcUrl c; HttpTimeout := HttpTimeout c;
     logger := l; versionCache := versionCache c; healthCache := healthCache c;
     cacheValidity := cacheValidity c |}.

(** The trace without its log lines. *)
Fixpoint silent (tr : list Event) : list Event :=
  match tr with
  | [] => []
  | EvLog _ _ :: tr => silent tr
  | e :: tr => e :: silent tr
  end.

(** The state [s] with the logger taken away and the log lines
    forgotten. *)
Definition mute (s : St) : St :=
  {| self := set_logger None (self s); now := now s; script := script s;
     picks := picks s; trace := silent (trace s) |}.

(** The first [n] waits of a backoff that begins with [d] and doubles. *)
Fixpoint delays (n : nat) (d : Duration) : list Duration :=
  match n with
  | O => []
  | S n => d :: delays n (Duration_mul d 2)
  end.

(** From [s] to [s'] the trace has only grown, and what was added keeps
    the discipline of the mutex from a free mutex to a free mutex. *)
Definition keeps_mutex_free (s s' : St) : Prop :=
  ∃ added, trace s' = trace s ++ added ∧
           disciplined unlocked added = Some unlocked.

(** ** An instance to run the client on

    Requests are written as JSON text (strings are copied without escapes,
    which is right for the method names and commitment levels of
    client.go), a URL that starts with a colon does not parse, and the
    decoders are canned: a table from the bodies a test serves to the
    responses they decode to, every other body being a syntax error. *)
Module Sample.

Definition dq : string := String "034"%char EmptyString.
Definition quoted (s : string) : string := dq +:+ s +:+ dq.

Definition member (kv : string * string) : string :=
  quoted kv.1 +:+ ":" +:+ quoted kv.2.

Definition render_any (a : any) : string :=
  match a with
  | AnyInt64 n => pretty n
  | AnyMap m => "{" +:+ String.concat "," (member <$> map_to_list m) +:+ "}"
  end.

Definition render (r : Request) : string :=
  "{" +:+ member ("jsonrpc", Jsonrpc r) +:+ ","
      +:+ quoted "id" +:+ ":" +:+ pretty (Id r) +:+ ","
      +:+ member ("method", Method r) +:+ ","
      +:+ quoted "params" +:+ ":[" +:+ String.concat "," (render_any <$> Params r)
      +:+ "]}".

Definition runtime : Runtime :=
  {| json_Marshal := fun r => (list_byte_of_string (render r), None);
     url_Parse := fun url =>
       match url with
       | String ":" _ => Some (LibError "missing protocol scheme")
       | _ => None
       end |}.

Definition canned {T} (table : list (string * Response T)) : Unmarshal T :=
  fun body rpcResponse =>
    match list_find (fun kv => String.eqb kv.1 (string_of_list_byte body) = true) table with
    | Some (_, kv) => (kv.2, None)
    | None => (rpcResponse, Some (LibError "invalid character"))
    end.

Definition ok {T} (v : T) : Response T := {| Result := v; Error := zero |}.
Definition rejected {T} (v : T) (code : Z) (msg : string) : Response T :=
  {| Result := v;
     Error := {| RPCError.Message := msg; RPCError.Code := code; RPCError.Method := "" |} |}.

Definition int64s : Unmarshal Z :=
  canned [("<7>", ok 7); ("<7!>", rejected 7 (-32004) "Block not available")].
Definition strings : Unmarshal string :=
  canned [("<ok>", ok "ok"); ("<ok!>", rejected "ok" (-32005) "Node is behind")].
Definition versions : Unmarshal VersionResult :=
  canned [("<1.18.0>", ok {| Version := "1.18.0" |});
          ("<1.18.0!>", rejected {| Version := "1.18.0" |} (-32601) "Method not found")].

(** An epoch info record of two fields stands for the undeclared type. *)
Record EpochInfo := { Epoch : Z; SlotIndex : Z }.
Definition zero_epoch : Zero EpochInfo := {| Epoch := 0; SlotIndex := 0 |}.
Definition epochs : Unmarshal EpochInfo :=
  canned [("<600/42>", ok {| Epoch := 600; SlotIndex := 42 |})].

Definition serves (ns : N) (body : string) : Exchange :=
  {| latency := ns;
     reply := Served {| http.ReadAll := (list_byte_of_string body, None) |} |}.
Definition drops (ns : N) : Exchange :=
  {| latency := ns; reply := Failed (LibError "connection reset by peer") |}.
(** The transport returns [e] at once, as it does with the context's
    error for a request whose context is done. *)
Definition refuses (e : err) : Exchange :=
  {| latency := 0; reply := Failed e |}.

Definition client : Client := NewRPCClient None "http://localhost:8899" (Duration_mul 5 time_Second).

Definition start (c : Client) (t : Time) (answers : list Exchange) : St :=
  {| self := c; now := t; script := answers; picks := []; trace := [] |}.

Definition background : Context := {| done_at := None; cause := CauseCanceled |}.

(** The state [s] after [d] nanoseconds in which the client is idle. *)
Definition later (d : Duration) (s : St) : St :=
  {| self := self s; now := now s + d; script := script s;
     picks := picks s; trace := trace s |}.

(** A context cancelled at instant [t]. *)
Definition cancelled_at (t : Time) : Context :=
  {| done_at := Some t; cause := CauseCanceled |}.


(** A client whose two slots were filled at instant [t0]. *)
Definition cached (t0 : Time) : Client :=
  set_healthCache (Some {| value := "ok"; timestamp := t0 |})
    (set_versionCache (Some {| value := "1.18.0"; timestamp := t0 |}) client).

(** A node that drops the first three connections and then answers. *)
Definition unreachable : St :=
  start client 0 [drops 10; drops 10; drops 10; serves 5 "<1.18.0>"].

(** The same node seen by a client whose slots, filled at instant 100,
    are a second past their TTL. *)
Definition stale : St :=
  start (cached 100) (100 + 61 * time_Second)
    [drops 10; drops 10; drops 10; serves 5 "<1.18.0>"].

(** A client whose slots, filled at instant 100, are one second old. *)
Definition warm : St :=
  start (cached 100) (100 + time_Second) [serves 5 "<1.18.0>"].

Definition reset : err :=
  Errorf "%s RPC call failed: %w" [OpString "getVersion"]
    (Some (LibError "connection reset by peer")).

(** A node that answers the second connection. *)
Definition flaky : St := start client 0 [drops 10; serves 5 "<1.18.0>"].

End Sample.


(** * Properties *)

Section Properties.

Context {runtime : Runtime}.
Context {EpochInfo : Type}.
Context {unmarshal_int64 : Unmarshal Z}
        {unmarshal_string : Unmarshal string}
        {unmarshal_version : Unmarshal VersionResult}
        {unmarshal_epoch : Unmarshal EpochInfo}
        {zero_epoch : Zero EpochInfo}.

Lemma exchanges_app tr1 tr2 :
  exchanges (tr1 ++ tr2) = exchanges tr1 ++ exchanges tr2.
Proof. apply omap_app. Qed.

Lemma timers_app tr1 tr2 : timers (tr1 ++ tr2) = timers tr1 ++ timers tr2.
Proof. apply omap_app. Qed.

Ltac unfold_prims :=
  unfold bind, ret, when, emit, the_client, store, time_Now, time_Since,
    context_Err, cacheMutex, Debug, Debugf, Debugw, Warnf, Errorf_log,
    HttpClient_Do, http_NewRequestWithContext in *.

Lemma getResponse_effect {T} {U : Unmarshal T} ctx method params
    (r0 : Response T) s :
  let s' := snd (getResponse ctx method params r0 s) in
  let sent := wire ctx (self s)
                {| Jsonrpc := "2.0"; Id := 1; Method := method; Params := params |} in
  self s' = self s ∧ picks s' = picks s ∧
  timers (trace s') = timers (trace s) ∧
  exchanges (trace s') = exchanges (trace s) ++ sent ∧
  script s' = drop (length sent) (script s) ∧
  now s' = now s + match sent with
                   | [] => 0
                   | _ => Z.of_N (latency (hd refused (script s)))
                   end.
Proof.
  unfold getResponse, wire. unfold_prims. simpl.
  destruct (json_Marshal _) as [buffer [e|]]; simpl.
  { rewrite app_nil_r. repeat split; auto; lia. }
  destruct (url_Parse _) as [e|]; simpl.
  { destruct (logger (self s)); simpl; rewrite ?exchanges_app, ?timers_app; simpl;
    rewrite ?app_nil_r; repeat split; auto; lia. }
  destruct (logger (self s)); simpl;
  destruct (reply _); simpl;
  try destruct (http.ReadAll _) as [body [e'|]]; simpl;
  try destruct (json_Unmarshal _ _) as [r [e''|]]; simpl;
  try destruct (negb _); simpl;
  rewrite ?exchanges_app, ?timers_app; simpl;
  rewrite ?app_nil_r, ?drop_0; repeat split; auto.
Qed.

Local Abbreviation envelope method params :=
  {| Jsonrpc := "2.0"; Id := 1; Method := method; Params := params |}.

(** The result of the codec, by what the coming exchange decodes to. *)
Lemma getResponse_result {T} {U : Unmarshal T} ctx method params
    (r0 : Response T) s :
  match decodes s (envelope method params) r0 with
  | Some decoded =>
      fst (getResponse ctx method params r0 s) =
        if RPCError.Code (Error decoded) =? 0 then (decoded, None)
        else ({| Result := Result decoded;
                 Error := RPCError.withMethod (Error decoded) method |},
              Some (RPCErr (RPCError.withMethod (Error decoded) method)))
  | None => ∃ r e, fst (getResponse ctx method params r0 s) = (r, Some e)
  end.
Proof.
  unfold getResponse, decodes. unfold_prims. simpl.
  destruct (json_Marshal _) as [buffer [e|]]; simpl; eauto.
  destruct (url_Parse _) as [e|]; simpl.
  { destruct (logger (self s)); simpl; eauto. }
  destruct (script s) as [|x rest] eqn:Hscript; simpl.
  { destruct (logger (self s)); cbn; rewrite ?Hscript; cbn; eauto. }
  assert (Hhd : hd refused (script s) = x) by (rewrite Hscript; reflexivity).
  destruct (reply x) as [e|resp] eqn:Hreply; simpl.
  { destruct (logger (self s)); cbn; rewrite ?Hhd, ?Hreply; cbn; eauto. }
  destruct (http.ReadAll resp) as [body [e|]] eqn:Hbody; simpl.
  { destruct (logger (self s)); cbn; rewrite ?Hhd, ?Hreply; cbn;
      rewrite ?Hbody; cbn; eauto. }
  destruct (json_Unmarshal body r0) as [decoded [e|]] eqn:Hdec; simpl.
  { destruct (logger (self s)); cbn; rewrite ?Hhd, ?Hreply; cbn;
      rewrite ?Hbody; cbn; rewrite ?Hdec; cbn; eauto. }
  destruct (logger (self s)); cbn; rewrite ?Hhd, ?Hreply; cbn;
    rewrite ?Hbody; cbn; rewrite ?Hdec; cbn;
    destruct (RPCError.Code (Error decoded) =? 0); reflexivity.
Qed.

(** The errors of the codec are wrapped library errors or RPC errors,
    never a bare context error. *)
Lemma getResponse_error_shape {T} {U : Unmarshal T} ctx method params
    (r0 : Response T) s e :
  snd (fst (getResponse ctx method params r0 s)) = Some e →
  (∃ format ops w, e = Errorf format ops (Some w)) ∨ (∃ re, e = RPCErr re).
Proof.
  unfold getResponse. unfold_prims. simpl.
  destruct (json_Marshal _) as [buffer [e0|]]; simpl.
  { intros [= <-]. eauto 6. }
  destruct (url_Parse _) as [e0|]; simpl.
  { destruct (logger (self s)); simpl; intros [= <-]; eauto 6. }
  destruct (logger (self s)); simpl;
  destruct (reply _); simpl;
  try destruct (http.ReadAll _) as [body [e'|]]; simpl;
  try destruct (json_Unmarshal _ _) as [r [e''|]]; simpl;
  try destruct (negb _); simpl; intros [= <-]; eauto 6.
Qed.

(** *** The typed methods as runs of the codec *)

Local Arguments getResponse : simpl never.

Lemma GetBlockTime_eq ctx slot s :
  GetBlockTime ctx slot s =
    let r := getResponse ctx "getBlockTime" [AnyInt64 slot] zero s in
    (match snd (fst r) with
     | Some e => (0, Some e)
     | None => (Result (fst (fst r)), None)
     end, snd r).
Proof.
  unfold GetBlockTime, bind, ret.
  destruct (getResponse _ _ _ _ _) as [[resp [e|]] s']; reflexivity.
Qed.

Lemma GetEpochInfo_eq ctx commitment s :
  GetEpochInfo ctx commitment s =
    let r := getResponse ctx "getEpochInfo"
               [AnyMap {[ "commitment" := commitment ]}] zero s in
    (match snd (fst r) with
     | Some e => (None, Some e)
     | None => (Some (Result (fst (fst r))), None)
     end, snd r).
Proof.
  unfold GetEpochInfo, bind, ret.
  destruct (getResponse _ _ _ _ _) as [[resp [e|]] s']; reflexivity.
Qed.

Lemma GetMinimumLedgerSlot_eq ctx s :
  GetMinimumLedgerSlot ctx s =
    let r := getResponse ctx "minimumLedgerSlot" [] zero s in
    (match snd (fst r) with
     | Some e => (0, Some e)
     | None => (Result (fst (fst r)), None)
     end, snd r).
Proof.
  unfold GetMinimumLedgerSlot, bind, ret.
  destruct (getResponse _ _ _ _ _) as [[resp [e|]] s']; reflexivity.
Qed.

Lemma GetFirstAvailableBlock_eq ctx s :
  GetFirstAvailableBlock ctx s =
    let r := getResponse ctx "getFirstAvailableBlock" [] zero s in
    (match snd (fst r) with
     | Some e => (0, Some e)
     | None => (Result (fst (fst r)), None)
     end, snd r).
Proof.
  unfold GetFirstAvailableBlock, bind, ret.
  destruct (getResponse _ _ _ _ _) as [[resp [e|]] s']; reflexivity.
Qed.

Lemma fresh_true slot validity t :
  fresh slot validity t = true ↔
  ∃ cv, slot = Some cv ∧ time_Sub t (timestamp cv) < validity.
Proof.
  unfold fresh. destruct slot as [cv|].
  - rewrite Z.ltb_lt. split; [eauto|]. by intros (? & [= <-] & ?).
  - split; [done|]. by intros (? & ? & ?).
Qed.

Lemma GetVersion_eq ctx s :
  GetVersion ctx s =
    match versionCache (self s) with
    | Some cv =>
        if time_Sub (now s) (timestamp cv) <? cacheValidity (self s)
        then ((value cv, None), after_hit "Version returned from cache" s)
        else
          let r := getResponse ctx "getVersion" [] zero (missed s) in
          match snd (fst r) with
          | Some e => (("", Some e), snd r)
          | None =>
              let v := Version (Result (fst (fst r))) in
              ((v, None), after_store set_versionCache v (snd r))
          end
    | None =>
        let r := getResponse ctx "getVersion" [] zero (missed s) in
        match snd (fst r) with
        | Some e => (("", Some e), snd r)
        | None =>
            let v := Version (Result (fst (fst r))) in
            ((v, None), after_store set_versionCache v (snd r))
        end
    end.
Proof.
  unfold GetVersion, after_hit, after_store, missed, cache_hit.
  unfold_prims. cbn.
  destruct (versionCache (self s)) as [cv|]; cbn.
  - destruct (_ <? _); cbn; [by destruct (logger (self s))|].
    destruct (getResponse _ _ _ _ _) as [[resp [e|]] s']; reflexivity.
  - destruct (getResponse _ _ _ _ _) as [[resp [e|]] s']; reflexivity.
Qed.

Lemma GetHealth_eq ctx s :
  GetHealth ctx s =
    match healthCache (self s) with
    | Some cv =>
        if time_Sub (now s) (timestamp cv) <? cacheValidity (self s)
        then ((value cv, None), after_hit "Health status returned from cache" s)
        else
          let r := getResponse ctx "getHealth" [] zero (missed s) in
          match snd (fst r) with
          | Some e => (("", Some e), snd r)
          | None =>
              let v := Result (fst (fst r)) in
              ((v, None), after_store set_healthCache v (snd r))
          end
    | None =>
        let r := getResponse ctx "getHealth" [] zero (missed s) in
        match snd (fst r) with
        | Some e => (("", Some e), snd r)
        | None =>
            let v := Result (fst (fst r)) in
            ((v, None), after_store set_healthCache v (snd r))
        end
    end.
Proof.
  unfold GetHealth, after_hit, after_store, missed, cache_hit.
  unfold_prims. cbn.
  destruct (healthCache (self s)) as [cv|]; cbn.
  - destruct (_ <? _); cbn; [by destruct (logger (self s))|].
    destruct (getResponse _ _ _ _ _) as [[resp [e|]] s']; reflexivity.
  - destruct (getResponse _ _ _ _ _) as [[resp [e|]] s']; reflexivity.
Qed.

Lemma wire_length ctx c request : (length (wire ctx c request) ≤ 1)%nat.
Proof.
  unfold wire. destruct (json_Marshal _) as [? [?|]];
    [|destruct (url_Parse _)]; simpl; lia.
Qed.

Lemma drop_wire ctx c request (l : list Exchange) :
  drop (length (wire ctx c request)) l =
    match wire ctx c request with [] => l | _ => tl l end.
Proof.
  unfold wire. destruct (json_Marshal _) as [? [?|]];
    [|destruct (url_Parse _)]; reflexivity.
Qed.

Lemma missed_facts s :
  self (missed s) = self s ∧ now (missed s) = now s ∧
  script (missed s) = script s ∧ picks (missed s) = picks s ∧
  exchanges (trace (missed s)) = exchanges (trace s) ∧
  timers (trace (missed s)) = timers (trace s).
Proof.
  unfold missed. unfold_prims. cbn.
  rewrite !exchanges_app, !timers_app. cbn. rewrite !app_nil_r. done.
Qed.

Lemma after_hit_facts msg s :
  self (after_hit msg s) = self s ∧ now (after_hit msg s) = now s ∧
  script (after_hit msg s) = script s ∧ picks (after_hit msg s) = picks s ∧
  exchanges (trace (after_hit msg s)) = exchanges (trace s) ∧
  timers (trace (after_hit msg s)) = timers (trace s).
Proof.
  unfold after_hit. unfold_prims. destruct (logger (self s)); cbn;
  rewrite !exchanges_app, !timers_app; cbn; rewrite !app_nil_r; done.
Qed.

Lemma after_store_facts set v s :
  self (after_store set v s) =
    set (Some {| value := v; timestamp := now s |}) (self s) ∧
  now (after_store set v s) = now s ∧
  script (after_store set v s) = script s ∧
  picks (after_store set v s) = picks s ∧
  exchanges (trace (after_store set v s)) = exchanges (trace s) ∧
  timers (trace (after_store set v s)) = timers (trace s).
Proof.
  unfold after_store. unfold_prims. cbn.
  rewrite !exchanges_app, !timers_app. cbn. rewrite !app_nil_r. done.
Qed.

Local Arguments missed : simpl never.
Local Arguments after_hit : simpl never.
Local Arguments after_store : simpl never.

(** Everything a call of [GetVersion] does to the state. *)
Lemma GetVersion_effect ctx s :
  let s' := snd (GetVersion ctx s) in
  let sent :=
    if fresh (versionCache (self s)) (cacheValidity (self s)) (now s) then []
    else wire ctx (self s) (envelope "getVersion" []) in
  same_but_versionCache (self s) (self s') ∧ picks s' = picks s ∧
  timers (trace s') = timers (trace s) ∧
  exchanges (trace s') = exchanges (trace s) ++ sent ∧
  script s' = drop (length sent) (script s) ∧
  now s ≤ now s' ∧
  (snd (fst (GetVersion ctx s)) ≠ None → self s' = self s).
Proof.
  rewrite GetVersion_eq. unfold fresh.
  pose proof (missed_facts s) as (Hm1 & Hm2 & Hm3 & Hm4 & Hm5 & Hm6).
  pose proof (after_hit_facts "Version returned from cache" s)
    as (Hh1 & Hh2 & Hh3 & Hh4 & Hh5 & Hh6).
  pose proof (getResponse_effect (T:=VersionResult) ctx "getVersion" [] zero (missed s))
    as (Hg1 & Hg2 & Hg3 & Hg4 & Hg5 & Hg6).
  cbv zeta in *. rewrite Hm1, Hm2, Hm3, Hm4, Hm5, Hm6 in *.
  assert (Hnow : now s ≤ now (getResponse (T:=VersionResult) ctx "getVersion" [] zero (missed s)).2).
  { rewrite Hg6. destruct (wire _ _ _); lia. }
  destruct (versionCache (self s)) as [cv|] eqn:Hslot;
    [destruct (_ <? _) eqn:Hage|]; cbn.
  - rewrite Hh1, Hh2, Hh3, Hh4, Hh5, Hh6, app_nil_r.
    unfold same_but_versionCache. done.
  - destruct (snd (fst _)) as [e|] eqn:He; cbn.
    + rewrite Hg1. unfold same_but_versionCache. done.
    + pose proof (after_store_facts set_versionCache
        (Version (Result (getResponse (T:=VersionResult) ctx "getVersion" [] zero (missed s)).1.1))
        (getResponse (T:=VersionResult) ctx "getVersion" [] zero (missed s)).2)
        as (Hs1 & Hs2 & Hs3 & Hs4 & Hs5 & Hs6).
      rewrite Hs1, Hs2, Hs3, Hs4, Hs5, Hs6, Hg1.
      unfold same_but_versionCache. cbn. done.
  - destruct (snd (fst _)) as [e|] eqn:He; cbn.
    + rewrite Hg1. unfold same_but_versionCache. done.
    + pose proof (after_store_facts set_versionCache
        (Version (Result (getResponse (T:=VersionResult) ctx "getVersion" [] zero (missed s)).1.1))
        (getResponse (T:=VersionResult) ctx "getVersion" [] zero (missed s)).2)
        as (Hs1 & Hs2 & Hs3 & Hs4 & Hs5 & Hs6).
      rewrite Hs1, Hs2, Hs3, Hs4, Hs5, Hs6, Hg1.
      unfold same_but_versionCache. cbn. done.
Qed.

(** Everything a call of [GetHealth] does to the state. *)
Lemma GetHealth_effect ctx s :
  let s' := snd (GetHealth ctx s) in
  let sent :=
    if fresh (healthCache (self s)) (cacheValidity (self s)) (now s) then []
    else wire ctx (self s) (envelope "getHealth" []) in
  same_but_healthCache (self s) (self s') ∧ picks s' = picks s ∧
  timers (trace s') = timers (trace s) ∧
  exchanges (trace s') = exchanges (trace s) ++ sent ∧
  script s' = drop (length sent) (script s) ∧
  now s ≤ now s' ∧
  (snd (fst (GetHealth ctx s)) ≠ None → self s' = self s).
Proof.
  rewrite GetHealth_eq. unfold fresh.
  pose proof (missed_facts s) as (Hm1 & Hm2 & Hm3 & Hm4 & Hm5 & Hm6).
  pose proof (after_hit_facts "Health status returned from cache" s)
    as (Hh1 & Hh2 & Hh3 & Hh4 & Hh5 & Hh6).
  pose proof (getResponse_effect (T:=string) ctx "getHealth" [] zero (missed s))
    as (Hg1 & Hg2 & Hg3 & Hg4 & Hg5 & Hg6).
  cbv zeta in *. rewrite Hm1, Hm2, Hm3, Hm4, Hm5, Hm6 in *.
  assert (Hnow : now s ≤ now (getResponse (T:=string) ctx "getHealth" [] zero (missed s)).2).
  { rewrite Hg6. destruct (wire _ _ _); lia. }
  destruct (healthCache (self s)) as [cv|] eqn:Hslot;
    [destruct (_ <? _) eqn:Hage|]; cbn.
  - rewrite Hh1, Hh2, Hh3, Hh4, Hh5, Hh6, app_nil_r.
    unfold same_but_healthCache. done.
  - destruct (snd (fst _)) as [e|] eqn:He; cbn.
    + rewrite Hg1. unfold same_but_healthCache. done.
    + pose proof (after_store_facts set_healthCache
        (Result (getResponse (T:=string) ctx "getHealth" [] zero (missed s)).1.1)
        (getResponse (T:=string) ctx "getHealth" [] zero (missed s)).2)
        as (Hs1 & Hs2 & Hs3 & Hs4 & Hs5 & Hs6).
      rewrite Hs1, Hs2, Hs3, Hs4, Hs5, Hs6, Hg1.
      unfold same_but_healthCache. cbn. done.
  - destruct (snd (fst _)) as [e|] eqn:He; cbn.
    + rewrite Hg1. unfold same_but_healthCache. done.
    + pose proof (after_store_facts set_healthCache
        (Result (getResponse (T:=string) ctx "getHealth" [] zero (missed s)).1.1)
        (getResponse (T:=string) ctx "getHealth" [] zero (missed s)).2)
        as (Hs1 & Hs2 & Hs3 & Hs4 & Hs5 & Hs6).
      rewrite Hs1, Hs2, Hs3, Hs4, Hs5, Hs6, Hg1.
      unfold same_but_healthCache. cbn. done.
Qed.


Lemma decodes_missed {T} {U : Unmarshal T} s request (r0 : Response T) :
  decodes (missed s) request r0 = decodes s request r0.
Proof. reflexivity. Qed.

(** *** The claims about the codec and the typed methods *)

(** C10: whatever the address and the timeout, [NewRPCClient] sets the
    cache TTL to exactly 60 seconds (60 000 000 000 ns) and leaves both
    cache slots empty; the TTL does not depend on the arguments. *)
Theorem NewRPCClient_cache slog_Get rpcAddr httpTimeout :
  let c := NewRPCClient slog_Get rpcAddr httpTimeout in
  cacheValidity c = 60 * time_Second ∧
  cacheValidity c = 60000000000 ∧
  versionCache c = None ∧ healthCache c = None ∧
  ∀ slog_Get' rpcAddr' httpTimeout',
    cacheValidity (NewRPCClient slog_Get' rpcAddr' httpTimeout') = cacheValidity c.
Proof. cbv zeta. repeat split. Qed.

(** C1: when the coming exchange decodes to a response whose error code
    is not zero, [getResponse] returns as its error the decoded
    [RPCError] with the method name attached, whatever the result field
    holds; and every typed method then hands its caller that error with
    the zero value, never the decoded result. *)
Theorem getResponse_error_precedence ctx s :
  (∀ T (U : Unmarshal T) method params (rpcResponse decoded : Response T),
     decodes s (envelope method params) rpcResponse = Some decoded →
     RPCError.Code (Error decoded) ≠ 0 →
     fst (getResponse ctx method params rpcResponse s) =
       ({| Result := Result decoded;
           Error := {| RPCError.Message := RPCError.Message (Error decoded);
                       RPCError.Code := RPCError.Code (Error decoded);
                       RPCError.Method := method |} |},
        Some (RPCErr {| RPCError.Message := RPCError.Message (Error decoded);
                        RPCError.Code := RPCError.Code (Error decoded);
                        RPCError.Method := method |}))) ∧
  (∀ slot (decoded : Response Z),
     decodes s (envelope "getBlockTime" [AnyInt64 slot]) zero = Some decoded →
     RPCError.Code (Error decoded) ≠ 0 →
     fst (GetBlockTime ctx slot s) =
       (0, Some (RPCErr (RPCError.withMethod (Error decoded) "getBlockTime")))) ∧
  (∀ commitment (decoded : Response EpochInfo),
     decodes s (envelope "getEpochInfo"
                  [AnyMap {[ "commitment" := commitment ]}]) zero = Some decoded →
     RPCError.Code (Error decoded) ≠ 0 →
     fst (GetEpochInfo ctx commitment s) =
       (None, Some (RPCErr (RPCError.withMethod (Error decoded) "getEpochInfo")))) ∧
  (∀ decoded : Response Z,
     decodes s (envelope "minimumLedgerSlot" []) zero = Some decoded →
     RPCError.Code (Error decoded) ≠ 0 →
     fst (GetMinimumLedgerSlot ctx s) =
       (0, Some (RPCErr (RPCError.withMethod (Error decoded) "minimumLedgerSlot")))) ∧
  (∀ decoded : Response Z,
     decodes s (envelope "getFirstAvailableBlock" []) zero = Some decoded →
     RPCError.Code (Error decoded) ≠ 0 →
     fst (GetFirstAvailableBlock ctx s) =
       (0, Some (RPCErr (RPCError.withMethod (Error decoded) "getFirstAvailableBlock")))) ∧
  (∀ decoded : Response VersionResult,
     fresh (versionCache (self s)) (cacheValidity (self s)) (now s) = false →
     decodes s (envelope "getVersion" []) zero = Some decoded →
     RPCError.Code (Error decoded) ≠ 0 →
     fst (GetVersion ctx s) =
       ("", Some (RPCErr (RPCError.withMethod (Error decoded) "getVersion")))) ∧
  (∀ decoded : Response string,
     fresh (healthCache (self s)) (cacheValidity (self s)) (now s) = false →
     decodes s (envelope "getHealth" []) zero = Some decoded →
     RPCError.Code (Error decoded) ≠ 0 →
     fst (GetHealth ctx s) =
       ("", Some (RPCErr (RPCError.withMethod (Error decoded) "getHealth")))).
Proof.
  assert (Hcodec : ∀ T (U : Unmarshal T) s0 method params
                     (rpcResponse decoded : Response T),
    decodes s0 (envelope method params) rpcResponse = Some decoded →
    RPCError.Code (Error decoded) ≠ 0 →
    fst (getResponse ctx method params rpcResponse s0) =
      ({| Result := Result decoded;
          Error := RPCError.withMethod (Error decoded) method |},
       Some (RPCErr (RPCError.withMethod (Error decoded) method)))).
  { intros T U s0 method params r0 decoded Hdec Hcode.
    pose proof (getResponse_result ctx method params r0 s0) as Hres.
    rewrite Hdec in Hres. rewrite Hres.
    destruct (Z.eqb_spec (RPCError.Code (Error decoded)) 0); [done|reflexivity]. }
  split; [exact (λ T U, Hcodec T U s)|].
  split; [|split; [|split; [|split; [|split]]]].
  - intros slot decoded Hdec Hcode. rewrite GetBlockTime_eq. cbv zeta.
    rewrite (Hcodec _ _ _ _ _ _ _ Hdec Hcode). reflexivity.
  - intros commitment decoded Hdec Hcode. rewrite GetEpochInfo_eq. cbv zeta.
    rewrite (Hcodec _ _ _ _ _ _ _ Hdec Hcode). reflexivity.
  - intros decoded Hdec Hcode. rewrite GetMinimumLedgerSlot_eq. cbv zeta.
    rewrite (Hcodec _ _ _ _ _ _ _ Hdec Hcode). reflexivity.
  - intros decoded Hdec Hcode. rewrite GetFirstAvailableBlock_eq. cbv zeta.
    rewrite (Hcodec _ _ _ _ _ _ _ Hdec Hcode). reflexivity.
  - intros decoded Hfresh Hdec Hcode. rewrite GetVersion_eq.
    rewrite <- decodes_missed in Hdec.
    unfold fresh in Hfresh. destruct (versionCache (self s)) as [cv|];
      rewrite ?Hfresh; cbv zeta;
      rewrite (Hcodec _ _ _ _ _ _ _ Hdec Hcode); reflexivity.
  - intros decoded Hfresh Hdec Hcode. rewrite GetHealth_eq.
    rewrite <- decodes_missed in Hdec.
    unfold fresh in Hfresh. destruct (healthCache (self s)) as [cv|];
      rewrite ?Hfresh; cbv zeta;
      rewrite (Hcodec _ _ _ _ _ _ _ Hdec Hcode); reflexivity.
Qed.

(** C6: the requests a call hands to the transport are the encoding of
    a [Request] whose jsonrpc field is "2.0", whose id is 1 and whose
    method and parameters are the ones supplied, in order; each typed
    method supplies the name and the parameters of the wire table (the
    cached methods send nothing on a cache hit). *)
Theorem request_envelope ctx s :
  (∀ T (U : Unmarshal T) method params (rpcResponse : Response T),
     exchanges (trace (snd (getResponse ctx method params rpcResponse s))) =
       exchanges (trace s) ++
       wire ctx (self s)
         {| Jsonrpc := "2.0"; Id := 1; Method := method; Params := params |}) ∧
  (∀ slot,
     exchanges (trace (snd (GetBlockTime ctx slot s))) =
       exchanges (trace s) ++
       wire ctx (self s)
         {| Jsonrpc := "2.0"; Id := 1; Method := "getBlockTime";
            Params := [AnyInt64 slot] |}) ∧
  (∀ commitment,
     exchanges (trace (snd (GetEpochInfo ctx commitment s))) =
       exchanges (trace s) ++
       wire ctx (self s)
         {| Jsonrpc := "2.0"; Id := 1; Method := "getEpochInfo";
            Params := [AnyMap {[ "commitment" := commitment ]}] |}) ∧
  exchanges (trace (snd (GetVersion ctx s))) =
    exchanges (trace s) ++
    (if fresh (versionCache (self s)) (cacheValidity (self s)) (now s) then []
     else wire ctx (self s)
            {| Jsonrpc := "2.0"; Id := 1; Method := "getVersion"; Params := [] |}) ∧
  exchanges (trace (snd (GetHealth ctx s))) =
    exchanges (trace s) ++
    (if fresh (healthCache (self s)) (cacheValidity (self s)) (now s) then []
     else wire ctx (self s)
            {| Jsonrpc := "2.0"; Id := 1; Method := "getHealth"; Params := [] |}) ∧
  exchanges (trace (snd (GetMinimumLedgerSlot ctx s))) =
    exchanges (trace s) ++
    wire ctx (self s)
      {| Jsonrpc := "2.0"; Id := 1; Method := "minimumLedgerSlot"; Params := [] |} ∧
  exchanges (trace (snd (GetFirstAvailableBlock ctx s))) =
    exchanges (trace s) ++
    wire ctx (self s)
      {| Jsonrpc := "2.0"; Id := 1; Method := "getFirstAvailableBlock";
         Params := [] |}.
Proof.
  split; [intros; apply getResponse_effect|].
  split; [intros; rewrite GetBlockTime_eq; apply getResponse_effect|].
  split; [intros; rewrite GetEpochInfo_eq; apply getResponse_effect|].
  split; [apply GetVersion_effect|].
  split; [apply GetHealth_effect|].
  split.
  - rewrite GetMinimumLedgerSlot_eq. apply getResponse_effect.
  - rewrite GetFirstAvailableBlock_eq. apply getResponse_effect.
Qed.

Lemma at_most_one_exchange_wire ctx c request s s' :
  exchanges (trace s') = exchanges (trace s) ++ wire ctx c request →
  script s' = drop (length (wire ctx c request)) (script s) →
  at_most_one_exchange s s'.
Proof.
  intros Hx Hs. rewrite drop_wire in Hs. unfold at_most_one_exchange.
  pose proof (wire_length ctx c request) as Hlen.
  destruct (wire ctx c request) as [|req [|req' l]]; simpl in Hlen; try lia.
  - left. by rewrite Hx, app_nil_r.
  - right. eauto.
Qed.

Lemma getResponse_once {T} {U : Unmarshal T} ctx method params
    (r0 : Response T) s :
  at_most_one_exchange s (snd (getResponse ctx method params r0 s)).
Proof.
  pose proof (getResponse_effect ctx method params r0 s)
    as (_ & _ & _ & Hx & Hs & _).
  eapply at_most_one_exchange_wire; eauto.
Qed.

(** C7: the codec uses the transport at most once, and a typed method
    other than the probe is one run of the codec: it leaves the world as
    that run does and returns its error as it is, so that it uses the
    transport at most once and a failed exchange is not tried again.  A
    cached method does so when its cache check misses, and does not use
    the transport when it hits. *)
Theorem typed_methods_single_attempt ctx s :
  (∀ T (U : Unmarshal T) method params (rpcResponse : Response T),
     at_most_one_exchange s (snd (getResponse ctx method params rpcResponse s))) ∧
  (∀ slot,
     let r := getResponse (T:=Z) ctx "getBlockTime" [AnyInt64 slot] zero s in
     snd (GetBlockTime ctx slot s) = snd r ∧
     snd (fst (GetBlockTime ctx slot s)) = snd (fst r) ∧
     at_most_one_exchange s (snd (GetBlockTime ctx slot s))) ∧
  (∀ commitment,
     let r := getResponse (T:=EpochInfo) ctx "getEpochInfo"
                [AnyMap {[ "commitment" := commitment ]}] zero s in
     snd (GetEpochInfo ctx commitment s) = snd r ∧
     snd (fst (GetEpochInfo ctx commitment s)) = snd (fst r) ∧
     at_most_one_exchange s (snd (GetEpochInfo ctx commitment s))) ∧
  (let r := getResponse (T:=Z) ctx "minimumLedgerSlot" [] zero s in
   snd (GetMinimumLedgerSlot ctx s) = snd r ∧
   snd (fst (GetMinimumLedgerSlot ctx s)) = snd (fst r) ∧
   at_most_one_exchange s (snd (GetMinimumLedgerSlot ctx s))) ∧
  (let r := getResponse (T:=Z) ctx "getFirstAvailableBlock" [] zero s in
   snd (GetFirstAvailableBlock ctx s) = snd r ∧
   snd (fst (GetFirstAvailableBlock ctx s)) = snd (fst r) ∧
   at_most_one_exchange s (snd (GetFirstAvailableBlock ctx s))) ∧
  (let r := getResponse (T:=VersionResult) ctx "getVersion" [] zero (missed s) in
   at_most_one_exchange s (snd (GetVersion ctx s)) ∧
   (fresh (versionCache (self s)) (cacheValidity (self s)) (now s) = true →
    exchanges (trace (snd (GetVersion ctx s))) = exchanges (trace s) ∧
    script (snd (GetVersion ctx s)) = script s) ∧
   (fresh (versionCache (self s)) (cacheValidity (self s)) (now s) = false →
    snd (fst (GetVersion ctx s)) = snd (fst r) ∧
    exchanges (trace (snd (GetVersion ctx s))) = exchanges (trace (snd r)) ∧
    script (snd (GetVersion ctx s)) = script (snd r) ∧
    ∀ e, snd (fst r) = Some e → GetVersion ctx s = (("", Some e), snd r))) ∧
  (let r := getResponse (T:=string) ctx "getHealth" [] zero (missed s) in
   at_most_one_exchange s (snd (GetHealth ctx s)) ∧
   (fresh (healthCache (self s)) (cacheValidity (self s)) (now s) = true →
    exchanges (trace (snd (GetHealth ctx s))) = exchanges (trace s) ∧
    script (snd (GetHealth ctx s)) = script s) ∧
   (fresh (healthCache (self s)) (cacheValidity (self s)) (now s) = false →
    snd (fst (GetHealth ctx s)) = snd (fst r) ∧
    exchanges (trace (snd (GetHealth ctx s))) = exchanges (trace (snd r)) ∧
    script (snd (GetHealth ctx s)) = script (snd r) ∧
    ∀ e, snd (fst r) = Some e → GetHealth ctx s = (("", Some e), snd r))).
Proof.
  split; [intros; apply getResponse_once|].
  split; [intros slot; cbv zeta; rewrite GetBlockTime_eq; cbv zeta; cbn [fst snd];
          split; [done|split; [by destruct (snd (fst _))|apply getResponse_once]]|].
  split; [intros c; cbv zeta; rewrite GetEpochInfo_eq; cbv zeta; cbn [fst snd];
          split; [done|split; [by destruct (snd (fst _))|apply getResponse_once]]|].
  split; [cbv zeta; rewrite GetMinimumLedgerSlot_eq; cbv zeta; cbn [fst snd];
          split; [done|split; [by destruct (snd (fst _))|apply getResponse_once]]|].
  split; [cbv zeta; rewrite GetFirstAvailableBlock_eq; cbv zeta; cbn [fst snd];
          split; [done|split; [by destruct (snd (fst _))|apply getResponse_once]]|].
  split; cbv zeta.
  - pose proof (GetVersion_effect ctx s) as (_ & _ & _ & Hx & Hs & _).
    pose proof (missed_facts s) as (Hm1 & _ & Hm3 & _ & Hm5 & _).
    pose proof (getResponse_effect (T:=VersionResult) ctx "getVersion" [] zero (missed s))
      as (_ & _ & _ & Hgx & Hgs & _).
    cbv zeta in *. rewrite Hm1, Hm3, Hm5 in *.
    split; [|split].
    + destruct (fresh _ _ _).
      * left. by rewrite Hx, Hs, app_nil_r.
      * eapply at_most_one_exchange_wire; eauto.
    + intros Hf. rewrite Hf in *. by rewrite Hx, Hs, app_nil_r.
    + intros Hf. clear Hx Hs Hgx Hgs.
      rewrite GetVersion_eq. unfold fresh in Hf.
      destruct (versionCache (self s)) as [cv|]; rewrite ?Hf; cbv zeta;
        destruct (getResponse (T:=VersionResult) ctx "getVersion" [] zero (missed s))
          as [[resp [e|]] s1]; cbn [fst snd];
        repeat split; try done; try apply after_store_facts;
        try (by intros ? [=]); by intros ? [= <-].
  - pose proof (GetHealth_effect ctx s) as (_ & _ & _ & Hx & Hs & _).
    pose proof (missed_facts s) as (Hm1 & _ & Hm3 & _ & Hm5 & _).
    pose proof (getResponse_effect (T:=string) ctx "getHealth" [] zero (missed s))
      as (_ & _ & _ & Hgx & Hgs & _).
    cbv zeta in *. rewrite Hm1, Hm3, Hm5 in *.
    split; [|split].
    + destruct (fresh _ _ _).
      * left. by rewrite Hx, Hs, app_nil_r.
      * eapply at_most_one_exchange_wire; eauto.
    + intros Hf. rewrite Hf in *. by rewrite Hx, Hs, app_nil_r.
    + intros Hf. clear Hx Hs Hgx Hgs.
      rewrite GetHealth_eq. unfold fresh in Hf.
      destruct (healthCache (self s)) as [cv|]; rewrite ?Hf; cbv zeta;
        destruct (getResponse (T:=string) ctx "getHealth" [] zero (missed s))
          as [[resp [e|]] s1]; cbn [fst snd];
        repeat split; try done; try apply after_store_facts;
        try (by intros ? [=]); by intros ? [= <-].
Qed.

(** C9: a typed method that returns an error returns it with the zero
    value of its result type: 0, the empty string, or the nil pointer. *)
Theorem error_returns_zero_value ctx s :
  (∀ slot v e s', GetBlockTime ctx slot s = ((v, Some e), s') → v = 0) ∧
  (∀ commitment v e s',
     GetEpochInfo ctx commitment s = ((v, Some e), s') → v = None) ∧
  (∀ v e s', GetVersion ctx s = ((v, Some e), s') → v = "") ∧
  (∀ v e s', GetHealth ctx s = ((v, Some e), s') → v = "") ∧
  (∀ v e s', GetMinimumLedgerSlot ctx s = ((v, Some e), s') → v = 0) ∧
  (∀ v e s', GetFirstAvailableBlock ctx s = ((v, Some e), s') → v = 0).
Proof.
  split; [intros slot v e s'; rewrite GetBlockTime_eq; cbv zeta;
          destruct (snd (fst _)); by intros [= <-]|].
  split; [intros c v e s'; rewrite GetEpochInfo_eq; cbv zeta;
          destruct (snd (fst _)); by intros [= <-]|].
  split; [intros v e s'; rewrite GetVersion_eq;
          destruct (versionCache (self s)) as [cv|];
            [destruct (_ <? _); [by intros [=]|]|];
            cbv zeta; destruct (snd (fst _)); by intros [= <-]|].
  split; [intros v e s'; rewrite GetHealth_eq;
          destruct (healthCache (self s)) as [cv|];
            [destruct (_ <? _); [by intros [=]|]|];
            cbv zeta; destruct (snd (fst _)); by intros [= <-]|].
  split; [intros v e s'; rewrite GetMinimumLedgerSlot_eq; cbv zeta;
          destruct (snd (fst _)); by intros [= <-]|].
  intros v e s'; rewrite GetFirstAvailableBlock_eq; cbv zeta;
    destruct (snd (fst _)); by intros [= <-].
Qed.

(** *** The cache *)

(** C4: when the refresh of a cached method fails, the method returns
    the codec's error (with the empty string) in the state in which the
    codec left the world, and the client object, hence the cache slot
    with its value and timestamp or its emptiness, is as it was before
    the call; no call that returns an error writes to the client. *)
Theorem failed_refresh_keeps_cache ctx s :
  (∀ r e s1,
     fresh (versionCache (self s)) (cacheValidity (self s)) (now s) = false →
     getResponse (T:=VersionResult) ctx "getVersion" [] zero (missed s)
       = ((r, Some e), s1) →
     GetVersion ctx s = (("", Some e), s1) ∧
     versionCache (self s1) = versionCache (self s) ∧ self s1 = self s) ∧
  (∀ v e s', GetVersion ctx s = ((v, Some e), s') → self s' = self s) ∧
  (∀ r e s1,
     fresh (healthCache (self s)) (cacheValidity (self s)) (now s) = false →
     getResponse (T:=string) ctx "getHealth" [] zero (missed s)
       = ((r, Some e), s1) →
     GetHealth ctx s = (("", Some e), s1) ∧
     healthCache (self s1) = healthCache (self s) ∧ self s1 = self s) ∧
  (∀ v e s', GetHealth ctx s = ((v, Some e), s') → self s' = self s).
Proof.
  pose proof (missed_facts s) as (Hm1 & _).
  split; [|split; [|split]].
  - intros r e s1 Hf Hg.
    pose proof (getResponse_effect (T:=VersionResult) ctx "getVersion" [] zero (missed s))
      as (Hself & _).
    rewrite GetVersion_eq. unfold fresh in Hf. rewrite Hg in *. cbn in Hself.
    rewrite Hself, Hm1.
    destruct (versionCache (self s)); rewrite ?Hf; done.
  - intros v e s' Hcall.
    pose proof (GetVersion_effect ctx s) as (_ & _ & _ & _ & _ & _ & Herr).
    cbv zeta in Herr. rewrite Hcall in Herr. by apply Herr.
  - intros r e s1 Hf Hg.
    pose proof (getResponse_effect (T:=string) ctx "getHealth" [] zero (missed s))
      as (Hself & _).
    rewrite GetHealth_eq. unfold fresh in Hf. rewrite Hg in *. cbn in Hself.
    rewrite Hself, Hm1.
    destruct (healthCache (self s)); rewrite ?Hf; done.
  - intros v e s' Hcall.
    pose proof (GetHealth_effect ctx s) as (_ & _ & _ & _ & _ & _ & Herr).
    cbv zeta in Herr. rewrite Hcall in Herr. by apply Herr.
Qed.

Lemma getResponse_ok_sends {T} {U : Unmarshal T} ctx method params
    (r0 : Response T) s :
  snd (fst (getResponse ctx method params r0 s)) = None →
  wire ctx (self s) (envelope method params) =
    [post ctx (RpcUrl (self s)) (fst (json_Marshal (envelope method params)))].
Proof.
  pose proof (getResponse_result ctx method params r0 s) as Hres.
  unfold decodes, wire in *.
  destruct (json_Marshal _) as [buffer [e|]].
  { destruct Hres as (r & e' & ->). by intros [=]. }
  destruct (url_Parse _) as [e|].
  { destruct Hres as (r & e' & ->). by intros [=]. }
  reflexivity.
Qed.

Lemma fresh_boundary (cv : cachedValue string) validity t :
  minDuration ≤ validity ≤ maxDuration →
  t = timestamp cv + validity →
  fresh (Some cv) validity t = false.
Proof.
  intros Hrange ->. unfold fresh, time_Sub. apply Z.ltb_ge. lia.
Qed.

Lemma GetVersion_freshness ctx s :
  let slot := versionCache (self s) in
  let ttl := cacheValidity (self s) in
  let s' := snd (GetVersion ctx s) in
  let refresh := getResponse (T:=VersionResult) ctx "getVersion" [] zero (missed s) in
  (∀ cv, slot = Some cv → time_Sub (now s) (timestamp cv) < ttl →
     fst (GetVersion ctx s) = (value cv, None) ∧
     exchanges (trace s') = exchanges (trace s) ∧ script s' = script s) ∧
  (fresh slot ttl (now s) = false →
     snd (fst (GetVersion ctx s)) = snd (fst refresh) ∧
     ∀ v, fst (GetVersion ctx s) = (v, None) →
       v = Version (Result (fst (fst refresh))) ∧
       exchanges (trace s') =
         exchanges (trace s) ++
         [post ctx (RpcUrl (self s))
            (fst (json_Marshal (envelope "getVersion" [])))] ∧
       script s' = tl (script s)) ∧
  ((∃ cv, slot = Some cv ∧ time_Sub (now s) (timestamp cv) < ttl) ↔
   (snd (fst (GetVersion ctx s)) = None ∧
    exchanges (trace s') = exchanges (trace s))) ∧
  (∀ cv, slot = Some cv → minDuration ≤ ttl ≤ maxDuration →
     now s = timestamp cv + ttl → fresh slot ttl (now s) = false).
Proof.
  cbv zeta.
  pose proof (GetVersion_effect ctx s) as (_ & _ & _ & Hx & Hs & _).
  pose proof (missed_facts s) as (Hm1 & _ & Hm3 & _ & Hm5 & _).
  pose proof (getResponse_ok_sends (T:=VersionResult) ctx "getVersion" [] zero (missed s))
    as Hsends.
  cbv zeta in *. rewrite Hm1 in Hsends.
  assert (Hhit : ∀ cv, versionCache (self s) = Some cv →
            time_Sub (now s) (timestamp cv) < cacheValidity (self s) →
            fst (GetVersion ctx s) = (value cv, None) ∧
            exchanges (trace (snd (GetVersion ctx s))) = exchanges (trace s) ∧
            script (snd (GetVersion ctx s)) = script s).
  { intros cv Hslot Hage.
    assert (Hf : fresh (versionCache (self s)) (cacheValidity (self s)) (now s) = true)
      by (apply fresh_true; eauto).
    rewrite Hf in *. rewrite Hx, Hs, app_nil_r.
    rewrite GetVersion_eq, Hslot. apply Z.ltb_lt in Hage. by rewrite Hage. }
  assert (Hmiss : fresh (versionCache (self s)) (cacheValidity (self s)) (now s) = false →
            snd (fst (GetVersion ctx s)) =
              snd (fst (getResponse (T:=VersionResult) ctx "getVersion" [] zero (missed s))) ∧
            ∀ v, fst (GetVersion ctx s) = (v, None) →
              v = Version (Result (fst (fst
                    (getResponse (T:=VersionResult) ctx "getVersion" [] zero (missed s))))) ∧
              exchanges (trace (snd (GetVersion ctx s))) =
                exchanges (trace s) ++
                [post ctx (RpcUrl (self s))
                   (fst (json_Marshal (envelope "getVersion" [])))] ∧
              script (snd (GetVersion ctx s)) = tl (script s)).
  { intros Hf. rewrite Hf in *. rewrite Hx, Hs. clear Hx Hs.
    rewrite GetVersion_eq. unfold fresh in Hf.
    destruct (versionCache (self s)) as [cv|]; rewrite ?Hf; cbv zeta;
      destruct (getResponse (T:=VersionResult) ctx "getVersion" [] zero (missed s))
        as [[resp [e|]] s1]; cbn [fst snd] in *;
      (split; [done|]); intros v [= <-]; by rewrite Hsends. }
  split; [exact Hhit|]. split; [exact Hmiss|]. split.
  - split.
    + intros (cv & Hslot & Hage). destruct (Hhit cv Hslot Hage) as (Hv & Hxs & _).
      by rewrite Hv.
    + intros (Herr & Hsame).
      destruct (fresh (versionCache (self s)) (cacheValidity (self s)) (now s)) eqn:Hf.
      { by apply fresh_true. }
      exfalso. destruct (Hmiss eq_refl) as (_ & Hval).
      destruct (fst (GetVersion ctx s)) as [v err] eqn:Hr. cbn in Herr. subst err.
      destruct (Hval v eq_refl) as (_ & Hgrow & _).
      rewrite Hsame in Hgrow. apply (f_equal length) in Hgrow.
      rewrite length_app in Hgrow. simpl in Hgrow. lia.
  - intros cv -> Hrange Hnow. by apply fresh_boundary.
Qed.

Lemma GetHealth_freshness ctx s :
  let slot := healthCache (self s) in
  let ttl := cacheValidity (self s) in
  let s' := snd (GetHealth ctx s) in
  let refresh := getResponse (T:=string) ctx "getHealth" [] zero (missed s) in
  (∀ cv, slot = Some cv → time_Sub (now s) (timestamp cv) < ttl →
     fst (GetHealth ctx s) = (value cv, None) ∧
     exchanges (trace s') = exchanges (trace s) ∧ script s' = script s) ∧
  (fresh slot ttl (now s) = false →
     snd (fst (GetHealth ctx s)) = snd (fst refresh) ∧
     ∀ v, fst (GetHealth ctx s) = (v, None) →
       v = Result (fst (fst refresh)) ∧
       exchanges (trace s') =
         exchanges (trace s) ++
         [post ctx (RpcUrl (self s))
            (fst (json_Marshal (envelope "getHealth" [])))] ∧
       script s' = tl (script s)) ∧
  ((∃ cv, slot = Some cv ∧ time_Sub (now s) (timestamp cv) < ttl) ↔
   (snd (fst (GetHealth ctx s)) = None ∧
    exchanges (trace s') = exchanges (trace s))) ∧
  (∀ cv, slot = Some cv → minDuration ≤ ttl ≤ maxDuration →
     now s = timestamp cv + ttl → fresh slot ttl (now s) = false).
Proof.
  cbv zeta.
  pose proof (GetHealth_effect ctx s) as (_ & _ & _ & Hx & Hs & _).
  pose proof (missed_facts s) as (Hm1 & _ & Hm3 & _ & Hm5 & _).
  pose proof (getResponse_ok_sends (T:=string) ctx "getHealth" [] zero (missed s))
    as Hsends.
  cbv zeta in *. rewrite Hm1 in Hsends.
  assert (Hhit : ∀ cv, healthCache (self s) = Some cv →
            time_Sub (now s) (timestamp cv) < cacheValidity (self s) →
            fst (GetHealth ctx s) = (value cv, None) ∧
            exchanges (trace (snd (GetHealth ctx s))) = exchanges (trace s) ∧
            script (snd (GetHealth ctx s)) = script s).
  { intros cv Hslot Hage.
    assert (Hf : fresh (healthCache (self s)) (cacheValidity (self s)) (now s) = true)
      by (apply fresh_true; eauto).
    rewrite Hf in *. rewrite Hx, Hs, app_nil_r.
    rewrite GetHealth_eq, Hslot. apply Z.ltb_lt in Hage. by rewrite Hage. }
  assert (Hmiss : fresh (healthCache (self s)) (cacheValidity (self s)) (now s) = false →
            snd (fst (GetHealth ctx s)) =
              snd (fst (getResponse (T:=string) ctx "getHealth" [] zero (missed s))) ∧
            ∀ v, fst (GetHealth ctx s) = (v, None) →
              v = Result (fst (fst
                    (getResponse (T:=string) ctx "getHealth" [] zero (missed s)))) ∧
              exchanges (trace (snd (GetHealth ctx s))) =
                exchanges (trace s) ++
                [post ctx (RpcUrl (self s))
                   (fst (json_Marshal (envelope "getHealth" [])))] ∧
              script (snd (GetHealth ctx s)) = tl (script s)).
  { intros Hf. rewrite Hf in *. rewrite Hx, Hs. clear Hx Hs.
    rewrite GetHealth_eq. unfold fresh in Hf.
    destruct (healthCache (self s)) as [cv|]; rewrite ?Hf; cbv zeta;
      destruct (getResponse (T:=string) ctx "getHealth" [] zero (missed s))
        as [[resp [e|]] s1]; cbn [fst snd] in *;
      (split; [done|]); intros v [= <-]; by rewrite Hsends. }
  split; [exact Hhit|]. split; [exact Hmiss|]. split.
  - split.
    + intros (cv & Hslot & Hage). destruct (Hhit cv Hslot Hage) as (Hv & Hxs & _).
      by rewrite Hv.
    + intros (Herr & Hsame).
      destruct (fresh (healthCache (self s)) (cacheValidity (self s)) (now s)) eqn:Hf.
      { by apply fresh_true. }
      exfalso. destruct (Hmiss eq_refl) as (_ & Hval).
      destruct (fst (GetHealth ctx s)) as [v err] eqn:Hr. cbn in Herr. subst err.
      destruct (Hval v eq_refl) as (_ & Hgrow & _).
      rewrite Hsame in Hgrow. apply (f_equal length) in Hgrow.
      rewrite length_app in Hgrow. simpl in Hgrow. lia.
  - intros cv -> Hrange Hnow. by apply fresh_boundary.
Qed.

(** C2: a cached method returns the cached value, with no exchange and
    no answer consumed, when its slot is populated and the time since
    its timestamp is less than the TTL; otherwise it runs the codec and
    returns a value only after exactly one exchange.  So a nil error
    without an exchange is returned if and only if the slot is populated
    and younger than the TTL, and a read at exactly timestamp + TTL is a
    miss. *)
Theorem cache_freshness ctx s :
  (let slot := versionCache (self s) in
   let ttl := cacheValidity (self s) in
   let s' := snd (GetVersion ctx s) in
   let refresh := getResponse (T:=VersionResult) ctx "getVersion" [] zero (missed s) in
   (∀ cv, slot = Some cv → time_Sub (now s) (timestamp cv) < ttl →
      fst (GetVersion ctx s) = (value cv, None) ∧
      exchanges (trace s') = exchanges (trace s) ∧ script s' = script s) ∧
   (fresh slot ttl (now s) = false →
      snd (fst (GetVersion ctx s)) = snd (fst refresh) ∧
      ∀ v, fst (GetVersion ctx s) = (v, None) →
        v = Version (Result (fst (fst refresh))) ∧
        exchanges (trace s') =
          exchanges (trace s) ++
          [post ctx (RpcUrl (self s))
             (fst (json_Marshal
                     {| Jsonrpc := "2.0"; Id := 1; Method := "getVersion";
                        Params := [] |}))] ∧
        script s' = tl (script s)) ∧
   ((∃ cv, slot = Some cv ∧ time_Sub (now s) (timestamp cv) < ttl) ↔
    (snd (fst (GetVersion ctx s)) = None ∧
     exchanges (trace s') = exchanges (trace s))) ∧
   (∀ cv, slot = Some cv → minDuration ≤ ttl ≤ maxDuration →
      now s = timestamp cv + ttl → fresh slot ttl (now s) = false)) ∧
  (let slot := healthCache (self s) in
   let ttl := cacheValidity (self s) in
   let s' := snd (GetHealth ctx s) in
   let refresh := getResponse (T:=string) ctx "getHealth" [] zero (missed s) in
   (∀ cv, slot = Some cv → time_Sub (now s) (timestamp cv) < ttl →
      fst (GetHealth ctx s) = (value cv, None) ∧
      exchanges (trace s') = exchanges (trace s) ∧ script s' = script s) ∧
   (fresh slot ttl (now s) = false →
      snd (fst (GetHealth ctx s)) = snd (fst refresh) ∧
      ∀ v, fst (GetHealth ctx s) = (v, None) →
        v = Result (fst (fst refresh)) ∧
        exchanges (trace s') =
          exchanges (trace s) ++
          [post ctx (RpcUrl (self s))
             (fst (json_Marshal
                     {| Jsonrpc := "2.0"; Id := 1; Method := "getHealth";
                        Params := [] |}))] ∧
        script s' = tl (script s)) ∧
   ((∃ cv, slot = Some cv ∧ time_Sub (now s) (timestamp cv) < ttl) ↔
    (snd (fst (GetHealth ctx s)) = None ∧
     exchanges (trace s') = exchanges (trace s))) ∧
   (∀ cv, slot = Some cv → minDuration ≤ ttl ≤ maxDuration →
      now s = timestamp cv + ttl → fresh slot ttl (now s) = false)).
Proof. split; [apply GetVersion_freshness|apply GetHealth_freshness]. Qed.

(** *** The connection probe *)

Lemma warned_facts s :
  self (warned s) = self s ∧ now (warned s) = now s ∧
  script (warned s) = script s ∧ picks (warned s) = picks s ∧
  exchanges (trace (warned s)) = exchanges (trace s) ∧
  timers (trace (warned s)) = timers (trace s).
Proof.
  unfold warned. unfold_prims. destruct (logger (self s)); cbn;
  rewrite ?exchanges_app, ?timers_app; cbn; rewrite ?app_nil_r; done.
Qed.

Lemma select_facts ctx d s :
  let s' := snd (select_Done_After ctx d s) in
  self s' = self s ∧ script s' = script s ∧
  exchanges (trace s') = exchanges (trace s) ∧
  timers (trace s') = timers (trace s) ++ [d].
Proof.
  unfold select_Done_After. cbv zeta.
  destruct (done_at ctx) as [tc|];
    [destruct (_ <? _); [|destruct (_ <? _); [|destruct (picks s) as [|[] ps]]]|];
    cbn; rewrite exchanges_app, timers_app; cbn; rewrite app_nil_r; done.
Qed.

Lemma backoff_facts ctx d s :
  self (backoff ctx d s) = self s ∧ script (backoff ctx d s) = script s ∧
  exchanges (trace (backoff ctx d s)) = exchanges (trace s) ∧
  timers (trace (backoff ctx d s)) = timers (trace s) ++ [d].
Proof.
  pose proof (warned_facts s) as (Hw1 & _ & Hw3 & _ & Hw5 & Hw6).
  pose proof (select_facts ctx d (warned s)) as (Hs1 & Hs2 & Hs3 & Hs4).
  unfold backoff. fold (warned s). cbv zeta in *.
  by rewrite Hs1, Hs2, Hs3, Hs4, Hw1, Hw3, Hw5, Hw6.
Qed.


(** The context case is taken when the context is done before the
    timer is ready, and the clock is then at the later of the instant
    the wait began and the instant the context was done. *)
Lemma select_done_first ctx d s tc :
  done_at ctx = Some tc → 0 < d → tc < now s + d →
  fst (select_Done_After ctx d s) = CaseDone ∧
  now (snd (select_Done_After ctx d s)) = Z.max (now s) tc ∧
  ctx_Err ctx (now (snd (select_Done_After ctx d s))) = Some (cause_err (cause ctx)).
Proof.
  intros Hctx Hd Hlt. unfold select_Done_After, ctx_Err, ctx_Done. rewrite Hctx.
  cbv zeta. destruct (Z.ltb_spec (Z.max (now s) tc) (now s + Z.max 0 d)); [|lia].
  cbn. split; [done|]. split; [done|].
  destruct (Z.leb_spec tc (Z.max (now s) tc)); [done|lia].
Qed.

Lemma select_timer_first ctx d s tc :
  done_at ctx = Some tc → 0 ≤ d → now s + d < tc →
  fst (select_Done_After ctx d s) = CaseAfter.
Proof.
  intros Hctx Hd Hlt. unfold select_Done_After. rewrite Hctx. cbv zeta.
  destruct (Z.ltb_spec (Z.max (now s) tc) (now s + Z.max 0 d)); [lia|].
  destruct (Z.ltb_spec (now s + Z.max 0 d) (Z.max (now s) tc)); [done|lia].
Qed.

(** One iteration of the loop of the probe. *)
Lemma TestConnection_loop_step ctx maxRetries remaining i d lastErr s :
  TestConnection_loop ctx maxRetries (S remaining) i d lastErr s =
    let r := GetVersion ctx s in
    match snd (fst r) with
    | None => (None, snd r)
    | Some e =>
        if i <? maxRetries - 1 then
          match fst (select_Done_After ctx d (warned (snd r))) with
          | CaseDone =>
              (ctx_Err ctx (now (backoff ctx d (snd r))), backoff ctx d (snd r))
          | CaseAfter =>
              TestConnection_loop ctx maxRetries remaining (i + 1)
                (Duration_mul d 2) (Some e) (backoff ctx d (snd r))
          end
        else
          TestConnection_loop ctx maxRetries remaining (i + 1) d (Some e)
            (warned (snd r))
    end.
Proof.
  cbn [TestConnection_loop]. unfold bind at 1.
  destruct (GetVersion ctx s) as [[v [e|]] s1]; cbn [fst snd]; [|reflexivity].
  cbv zeta. unfold backoff. fold (warned s1).
  unfold bind at 1. unfold the_client at 1.
  unfold bind at 1. unfold warned.
  destruct (when _ _ s1) as [[] s1'] eqn:Hw. cbn [fst snd].
  destruct (i <? maxRetries - 1); [|reflexivity].
  unfold bind at 1.
  destruct (select_Done_After ctx d s1') as [[|] s2]; cbn [fst snd]; reflexivity.
Qed.

Lemma first_delay : Duration_mul time_Second 2 = 2 * time_Second.
Proof. reflexivity. Qed.

Lemma second_delay : Duration_mul (2 * time_Second) 2 = 4 * time_Second.
Proof. reflexivity. Qed.

Lemma TestConnection_first ctx s :
  TestConnection ctx s =
    TestConnection_loop ctx 3 3 0 (2 * time_Second) None s.
Proof. reflexivity. Qed.

(** The errors of [GetVersion] are those of the codec. *)
Lemma GetVersion_error_shape ctx s v e s' :
  GetVersion ctx s = ((v, Some e), s') →
  e ≠ Canceled ∧ e ≠ DeadlineExceeded.
Proof.
  rewrite GetVersion_eq.
  pose proof (getResponse_error_shape (T:=VersionResult) ctx "getVersion" [] zero
                (missed s)) as Hshape.
  destruct (versionCache (self s)) as [cv|]; [destruct (_ <? _); [by intros [=]|]|];
    cbv zeta; destruct (snd (fst _)) as [e0|]; intros [= <- <- <-];
    destruct (Hshape e0 eq_refl) as [(f & ops & w & ->)|(re & ->)]; done.
Qed.


(** C5: when the context is done before the timer of a backoff wait is
    ready, the probe leaves the wait at that instant and returns the
    context's error, which is not the error of the failed fetch; the
    state is the one the wait began in but for the clock and the trace
    of the wait: no request is sent and no answer consumed after it. *)
Theorem TestConnection_cancelled ctx s0 tc :
  done_at ctx = Some tc →
  (∀ v1 e1 s1,
     GetVersion ctx s0 = ((v1, Some e1), s1) →
     tc < now s1 + 2 * time_Second →
     let s' := backoff ctx (2 * time_Second) s1 in
     TestConnection ctx s0 = (Some (cause_err (cause ctx)), s') ∧
     cause_err (cause ctx) ≠ e1 ∧
     now s' = Z.max (now s1) tc ∧
     self s' = self s1 ∧ script s' = script s1 ∧
     exchanges (trace s') = exchanges (trace s1)) ∧
  (∀ v1 e1 s1 v2 e2 s2,
     GetVersion ctx s0 = ((v1, Some e1), s1) →
     now s1 + 2 * time_Second < tc →
     GetVersion ctx (backoff ctx (2 * time_Second) s1) = ((v2, Some e2), s2) →
     tc < now s2 + 4 * time_Second →
     let s' := backoff ctx (4 * time_Second) s2 in
     TestConnection ctx s0 = (Some (cause_err (cause ctx)), s') ∧
     cause_err (cause ctx) ≠ e2 ∧
     now s' = Z.max (now s2) tc ∧
     self s' = self s2 ∧ script s' = script s2 ∧
     exchanges (trace s') = exchanges (trace s2)).
Proof.
  intros Hctx.
  assert (Hcause : ∀ s v e s', GetVersion ctx s = ((v, Some e), s') →
            cause_err (cause ctx) ≠ e).
  { intros s v e s' Hcall.
    destruct (GetVersion_error_shape _ _ _ _ _ Hcall) as (Hc & Hd).
    destruct (cause ctx); cbn; congruence. }
  assert (Hwait : ∀ d s, 0 < d → tc < now s + d →
            fst (select_Done_After ctx d (warned s)) = CaseDone ∧
            now (backoff ctx d s) = Z.max (now s) tc ∧
            ctx_Err ctx (now (backoff ctx d s)) = Some (cause_err (cause ctx))).
  { intros d s Hd Hlt.
    pose proof (warned_facts s) as (_ & Hnow & _).
    unfold backoff. fold (warned s). rewrite <- Hnow in *.
    by apply select_done_first. }
  split.
  - intros v1 e1 s1 H1 Hlt. cbv zeta.
    destruct (Hwait (2 * time_Second) s1) as (Hsel & Hnow & Herr);
      [done|done|].
    pose proof (backoff_facts ctx (2 * time_Second) s1) as (Hb1 & Hb2 & Hb3 & _).
    rewrite TestConnection_first, TestConnection_loop_step. cbv zeta.
    rewrite H1. cbn [fst snd]. change (0 <? 3 - 1) with true. cbv iota.
    rewrite Hsel, Herr. eauto 10.
  - intros v1 e1 s1 v2 e2 s2 H1 Hlt1 H2 Hlt2. cbv zeta.
    destruct (Hwait (4 * time_Second) s2) as (Hsel & Hnow & Herr);
      [done|done|].
    pose proof (backoff_facts ctx (4 * time_Second) s2) as (Hb1 & Hb2 & Hb3 & _).
    pose proof (warned_facts s1) as (_ & Hnow1 & _).
    rewrite TestConnection_first, TestConnection_loop_step. cbv zeta.
    rewrite H1. cbn [fst snd]. change (0 <? 3 - 1) with true. cbv iota.
    rewrite (select_timer_first ctx (2 * time_Second) (warned s1) tc)
      by (try done; rewrite Hnow1; done).
    rewrite second_delay, TestConnection_loop_step. cbv zeta.
    rewrite H2. cbn [fst snd]. change (0 + 1 <? 3 - 1) with true. cbv iota.
    rewrite Hsel, Herr. eauto 10.
Qed.

Lemma same_but_versionCache_trans c1 c2 c3 :
  same_but_versionCache c1 c2 → same_but_versionCache c2 c3 →
  same_but_versionCache c1 c3.
Proof.
  unfold same_but_versionCache. intros (?&?&?&?&?&?) (?&?&?&?&?&?).
  repeat split; congruence.
Qed.

Lemma TestConnection_loop_frame ctx maxRetries remaining :
  ∀ i d lastErr s,
    same_but_versionCache (self s)
      (self (snd (TestConnection_loop ctx maxRetries remaining i d lastErr s))).
Proof.
  induction remaining as [|remaining IH]; intros i d lastErr s.
  { cbn. unfold same_but_versionCache. done. }
  rewrite TestConnection_loop_step. cbv zeta.
  pose proof (GetVersion_effect ctx s) as (Hv & _). cbv zeta in Hv.
  pose proof (warned_facts (snd (GetVersion ctx s))) as (Hw & _).
  pose proof (backoff_facts ctx d (snd (GetVersion ctx s))) as (Hb & _).
  destruct (snd (fst (GetVersion ctx s))) as [e|]; [|done].
  destruct (i <? maxRetries - 1).
  - destruct (fst (select_Done_After _ _ _)); cbn [snd].
    + by rewrite Hb.
    + eapply same_but_versionCache_trans; [exact Hv|].
      rewrite <- Hb at 1. apply IH.
  - eapply same_but_versionCache_trans; [exact Hv|].
    rewrite <- Hw at 1. apply IH.
Qed.

(** C8: [GetVersion] leaves every field of the client but
    [versionCache] as it was, [GetHealth] every field but [healthCache],
    and the four other typed methods the whole client; the probe, which
    only calls [GetVersion], leaves every field but [versionCache]. *)
Theorem cache_frame ctx s :
  (let c' := self (snd (GetVersion ctx s)) in
   healthCache c' = healthCache (self s) ∧
   RpcUrl c' = RpcUrl (self s) ∧ HttpTimeout c' = HttpTimeout (self s) ∧
   cacheValidity c' = cacheValidity (self s) ∧
   HttpClient c' = HttpClient (self s) ∧ logger c' = logger (self s)) ∧
  (let c' := self (snd (GetHealth ctx s)) in
   versionCache c' = versionCache (self s) ∧
   RpcUrl c' = RpcUrl (self s) ∧ HttpTimeout c' = HttpTimeout (self s) ∧
   cacheValidity c' = cacheValidity (self s) ∧
   HttpClient c' = HttpClient (self s) ∧ logger c' = logger (self s)) ∧
  (∀ slot, self (snd (GetBlockTime ctx slot s)) = self s) ∧
  (∀ commitment, self (snd (GetEpochInfo ctx commitment s)) = self s) ∧
  self (snd (GetMinimumLedgerSlot ctx s)) = self s ∧
  self (snd (GetFirstAvailableBlock ctx s)) = self s ∧
  (let c' := self (snd (TestConnection ctx s)) in
   healthCache c' = healthCache (self s) ∧
   RpcUrl c' = RpcUrl (self s) ∧ HttpTimeout c' = HttpTimeout (self s) ∧
   cacheValidity c' = cacheValidity (self s) ∧
   HttpClient c' = HttpClient (self s) ∧ logger c' = logger (self s)).
Proof.
  split; [|split; [|split; [|split; [|split; [|split]]]]].
  - pose proof (GetVersion_effect ctx s) as (Hv & _).
    cbv zeta in *. unfold same_but_versionCache in Hv. tauto.
  - pose proof (GetHealth_effect ctx s) as (Hv & _).
    cbv zeta in *. unfold same_but_healthCache in Hv. tauto.
  - intros slot. rewrite GetBlockTime_eq. apply getResponse_effect.
  - intros c. rewrite GetEpochInfo_eq. apply getResponse_effect.
  - rewrite GetMinimumLedgerSlot_eq. apply getResponse_effect.
  - rewrite GetFirstAvailableBlock_eq. apply getResponse_effect.
  - pose proof (TestConnection_loop_frame ctx 3 3 0 (2 * time_Second) None s) as Hv.
    rewrite <- TestConnection_first in Hv.
    cbv zeta. unfold same_but_versionCache in Hv. tauto.
Qed.

(** ** Further properties *)

(** *** The stages at which the codec fails *)

(** X1: the codec names the stage at which it failed and wraps the cause: a
    request that cannot be encoded or a URL that does not parse fails
    before [HttpClient.Do] is called (the former leaves the state
    untouched); an error of [Do] is reported with the method name; a
    failed read and a failed decoding are told apart; in the last three
    cases [Do] was called exactly once, with the POST of the encoded
    request, and one answer of the transport was consumed. *)
Theorem getResponse_failure_stages {T} {U : Unmarshal T} ctx method params
    (rpcResponse : Response T) s :
  let request :=
    {| Jsonrpc := "2.0"; Id := 1; Method := method; Params := params |} in
  let out := getResponse ctx method params rpcResponse s in
  let sent := exchanges (trace s) ++ [post ctx (RpcUrl (self s))
                                        (fst (json_Marshal request))] in
  (∀ buffer e, json_Marshal request = (buffer, Some e) →
     out = ((rpcResponse,
             Some (Errorf "failed to marshal request: %w" [] (Some e))), s)) ∧
  (∀ e, snd (json_Marshal request) = None →
     url_Parse (RpcUrl (self s)) = Some e →
     fst out = (rpcResponse,
                Some (Errorf "failed to create request: %w" [] (Some e))) ∧
     exchanges (trace (snd out)) = exchanges (trace s) ∧
     script (snd out) = script s) ∧
  (∀ e, snd (json_Marshal request) = None →
     url_Parse (RpcUrl (self s)) = None →
     reply (hd refused (script s)) = Failed e →
     fst out = (rpcResponse,
                Some (Errorf "%s RPC call failed: %w" [OpString method] (Some e))) ∧
     exchanges (trace (snd out)) = sent ∧ script (snd out) = tl (script s)) ∧
  (∀ resp body e, snd (json_Marshal request) = None →
     url_Parse (RpcUrl (self s)) = None →
     reply (hd refused (script s)) = Served resp →
     http.ReadAll resp = (body, Some e) →
     fst out = (rpcResponse,
                Some (Errorf "error reading response: %w" [] (Some e))) ∧
     exchanges (trace (snd out)) = sent ∧ script (snd out) = tl (script s)) ∧
  (∀ resp body partial e, snd (json_Marshal request) = None →
     url_Parse (RpcUrl (self s)) = None →
     reply (hd refused (script s)) = Served resp →
     http.ReadAll resp = (body, None) →
     json_Unmarshal body rpcResponse = (partial, Some e) →
     fst out = (partial,
                Some (Errorf "failed to decode response: %w" [] (Some e))) ∧
     exchanges (trace (snd out)) = sent ∧ script (snd out) = tl (script s)).
Proof.
  cbv zeta.
  pose proof (getResponse_effect ctx method params rpcResponse s)
    as (_ & _ & _ & Hx & Hs & _).
  cbv zeta in Hx, Hs. rewrite drop_wire in Hs. unfold wire in Hx, Hs.
  split; [|split; [|split; [|split]]].
  - intros buffer e Hm. unfold getResponse. unfold_prims. cbn. by rewrite Hm.
  - intros e Hm Hu. rewrite Hu in *.
    destruct (json_Marshal _) as [buffer [e0|]] eqn:Hm'; [done|].
    rewrite app_nil_r in Hx. split; [|done].
    unfold getResponse. unfold_prims. cbn. rewrite Hm', Hu.
    by destruct (logger (self s)).
  - intros e Hm Hu Hr. rewrite Hu in *.
    destruct (json_Marshal _) as [buffer [e0|]] eqn:Hm'; [done|].
    split; [|done].
    unfold getResponse. unfold_prims. cbn. rewrite Hm', Hu.
    destruct (logger (self s)); cbn; rewrite Hr; reflexivity.
  - intros resp body e Hm Hu Hr Hb. rewrite Hu in *.
    destruct (json_Marshal _) as [buffer [e0|]] eqn:Hm'; [done|].
    split; [|done].
    unfold getResponse. unfold_prims. cbn. rewrite Hm', Hu.
    destruct (logger (self s)); cbn; rewrite Hr; cbn; rewrite Hb; reflexivity.
  - intros resp body partial e Hm Hu Hr Hb Hd. rewrite Hu in *.
    destruct (json_Marshal _) as [buffer [e0|]] eqn:Hm'; [done|].
    split; [|done].
    unfold getResponse. unfold_prims. cbn. rewrite Hm', Hu.
    destruct (logger (self s)); cbn; rewrite Hr; cbn; rewrite Hb; cbn;
      rewrite Hd; reflexivity.
Qed.

(** *** Successful calls *)

Lemma GetVersion_success_slot ctx s v s1 :
  GetVersion ctx s = ((v, None), s1) →
  cacheValidity (self s1) = cacheValidity (self s) ∧
  if fresh (versionCache (self s)) (cacheValidity (self s)) (now s)
  then versionCache (self s1) = versionCache (self s) ∧ now s1 = now s ∧
       ∃ cv, versionCache (self s) = Some cv ∧ value cv = v
  else versionCache (self s1) = Some {| value := v; timestamp := now s1 |}.
Proof.
  intros Hcall.
  pose proof (GetVersion_effect ctx s) as (Hsame & _). cbv zeta in Hsame.
  rewrite Hcall in Hsame. cbn [snd] in Hsame.
  split; [unfold same_but_versionCache, same_but_healthCache in Hsame; tauto|].
  clear Hsame. rewrite GetVersion_eq in Hcall. unfold fresh.
  pose proof (after_hit_facts "Version returned from cache" s) as (Hh1 & Hh2 & _).
  assert (Hmiss :
    (let r := getResponse (T:=VersionResult) ctx "getVersion" [] zero (missed s) in
     match snd (fst r) with
     | Some e => (("", Some e), snd r)
     | None => ((Version (Result (fst (fst r))), None),
                after_store set_versionCache (Version (Result (fst (fst r)))) (snd r))
     end) = ((v, None), s1) →
    versionCache (self s1) = Some {| value := v; timestamp := now s1 |}).
  { cbv zeta.
    destruct (getResponse (T:=VersionResult) ctx "getVersion" [] zero (missed s))
      as [[resp [e|]] s2]; cbn [fst snd]; [by intros [=]|].
    intros [= <- <-].
    pose proof (after_store_facts set_versionCache (Version (Result resp)) s2) as (Hs1 & Hs2 & _).
    rewrite Hs1, Hs2. reflexivity. }
  destruct (versionCache (self s)) as [cv|] eqn:Hslot; [destruct (_ <? _)|];
    [|by apply Hmiss..].
  injection Hcall as <- <-. rewrite Hh1, Hh2, Hslot.
  split; [done|split; [done|by exists cv]].
Qed.

Lemma GetVersion_refreshed ctx s (decoded : Response VersionResult) :
  fresh (versionCache (self s)) (cacheValidity (self s)) (now s) = false →
  decodes s (envelope "getVersion" []) zero = Some decoded →
  RPCError.Code (Error decoded) = 0 →
  fst (GetVersion ctx s) = (Version (Result decoded), None) ∧
  versionCache (self (snd (GetVersion ctx s))) =
    Some {| value := Version (Result decoded);
            timestamp := now s + Z.of_N (latency (hd refused (script s))) |}.
Proof.
  intros Hf Hdec Hcode.
  pose proof (getResponse_result (T:=VersionResult) ctx "getVersion" [] zero (missed s)) as Hres.
  rewrite decodes_missed, Hdec, Hcode in Hres. cbn in Hres.
  pose proof (getResponse_effect (T:=VersionResult) ctx "getVersion" [] zero (missed s))
    as (_ & _ & _ & _ & _ & Hnow).
  pose proof (getResponse_ok_sends (T:=VersionResult) ctx "getVersion" [] zero (missed s)) as Hsends.
  rewrite Hres in Hsends. cbv zeta in Hnow. rewrite (Hsends eq_refl) in Hnow.
  pose proof (missed_facts s) as (_ & Hm2 & Hm3 & _). rewrite Hm2, Hm3 in Hnow.
  assert (Hcall : GetVersion ctx s =
            ((Version (Result decoded), None),
             after_store set_versionCache (Version (Result decoded))
               (snd (getResponse (T:=VersionResult) ctx "getVersion" [] zero (missed s))))).
  { rewrite GetVersion_eq. unfold fresh in Hf.
    destruct (versionCache (self s)) as [cv|]; rewrite ?Hf; cbv zeta;
      rewrite Hres; reflexivity. }
  rewrite Hcall. cbn [fst snd]. split; [done|].
  pose proof (after_store_facts set_versionCache (Version (Result decoded))
                (snd (getResponse (T:=VersionResult) ctx "getVersion" [] zero (missed s))))
    as (Hs1 & _).
  rewrite Hs1, Hnow. reflexivity.
Qed.



Lemma GetHealth_refreshed ctx s (decoded : Response string) :
  fresh (healthCache (self s)) (cacheValidity (self s)) (now s) = false →
  decodes s (envelope "getHealth" []) zero = Some decoded →
  RPCError.Code (Error decoded) = 0 →
  fst (GetHealth ctx s) = (Result decoded, None) ∧
  healthCache (self (snd (GetHealth ctx s))) =
    Some {| value := Result decoded;
            timestamp := now s + Z.of_N (latency (hd refused (script s))) |}.
Proof.
  intros Hf Hdec Hcode.
  pose proof (getResponse_result (T:=string) ctx "getHealth" [] zero (missed s)) as Hres.
  rewrite decodes_missed, Hdec, Hcode in Hres. cbn in Hres.
  pose proof (getResponse_effect (T:=string) ctx "getHealth" [] zero (missed s))
    as (_ & _ & _ & _ & _ & Hnow).
  pose proof (getResponse_ok_sends (T:=string) ctx "getHealth" [] zero (missed s)) as Hsends.
  rewrite Hres in Hsends. cbv zeta in Hnow. rewrite (Hsends eq_refl) in Hnow.
  pose proof (missed_facts s) as (_ & Hm2 & Hm3 & _). rewrite Hm2, Hm3 in Hnow.
  assert (Hcall : GetHealth ctx s =
            ((Result decoded, None),
             after_store set_healthCache (Result decoded)
               (snd (getResponse (T:=string) ctx "getHealth" [] zero (missed s))))).
  { rewrite GetHealth_eq. unfold fresh in Hf.
    destruct (healthCache (self s)) as [cv|]; rewrite ?Hf; cbv zeta;
      rewrite Hres; reflexivity. }
  rewrite Hcall. cbn [fst snd]. split; [done|].
  pose proof (after_store_facts set_healthCache (Result decoded)
                (snd (getResponse (T:=string) ctx "getHealth" [] zero (missed s))))
    as (Hs1 & _).
  rewrite Hs1, Hnow. reflexivity.
Qed.


(** X2: when the coming exchange decodes to a response whose error code is
    zero, the codec returns it with a nil error, whatever the message of
    its error field, and the four uncached methods return its result
    ([GetEpochInfo] as a non-nil pointer). *)
Theorem typed_methods_return_decoded_result ctx s :
  (∀ T (U : Unmarshal T) method params (rpcResponse decoded : Response T),
     decodes s {| Jsonrpc := "2.0"; Id := 1; Method := method; Params := params |}
       rpcResponse = Some decoded →
     RPCError.Code (Error decoded) = 0 →
     fst (getResponse ctx method params rpcResponse s) = (decoded, None)) ∧
  (∀ slot (decoded : Response Z),
     decodes s (envelope "getBlockTime" [AnyInt64 slot]) zero = Some decoded →
     RPCError.Code (Error decoded) = 0 →
     fst (GetBlockTime ctx slot s) = (Result decoded, None)) ∧
  (∀ commitment (decoded : Response EpochInfo),
     decodes s (envelope "getEpochInfo"
                  [AnyMap {[ "commitment" := commitment ]}]) zero = Some decoded →
     RPCError.Code (Error decoded) = 0 →
     fst (GetEpochInfo ctx commitment s) = (Some (Result decoded), None)) ∧
  (∀ decoded : Response Z,
     decodes s (envelope "minimumLedgerSlot" []) zero = Some decoded →
     RPCError.Code (Error decoded) = 0 →
     fst (GetMinimumLedgerSlot ctx s) = (Result decoded, None)) ∧
  (∀ decoded : Response Z,
     decodes s (envelope "getFirstAvailableBlock" []) zero = Some decoded →
     RPCError.Code (Error decoded) = 0 →
     fst (GetFirstAvailableBlock ctx s) = (Result decoded, None)).
Proof.
  assert (Hcodec : ∀ T (U : Unmarshal T) method params
                     (rpcResponse decoded : Response T),
    decodes s (envelope method params) rpcResponse = Some decoded →
    RPCError.Code (Error decoded) = 0 →
    fst (getResponse ctx method params rpcResponse s) = (decoded, None)).
  { intros T U method params r0 decoded Hdec Hcode.
    pose proof (getResponse_result ctx method params r0 s) as Hres.
    by rewrite Hdec, Hcode in Hres. }
  split; [exact Hcodec|].
  split; [|split; [|split]].
  - intros slot decoded Hdec Hcode. rewrite GetBlockTime_eq. cbv zeta.
    rewrite (Hcodec _ _ _ _ _ _ Hdec Hcode). reflexivity.
  - intros commitment decoded Hdec Hcode. rewrite GetEpochInfo_eq. cbv zeta.
    rewrite (Hcodec _ _ _ _ _ _ Hdec Hcode). reflexivity.
  - intros decoded Hdec Hcode. rewrite GetMinimumLedgerSlot_eq. cbv zeta.
    rewrite (Hcodec _ _ _ _ _ _ Hdec Hcode). reflexivity.
  - intros decoded Hdec Hcode. rewrite GetFirstAvailableBlock_eq. cbv zeta.
    rewrite (Hcodec _ _ _ _ _ _ Hdec Hcode). reflexivity.
Qed.

(** *** The cache as a store *)

(** X3: a refresh that succeeds returns the decoded value and stores it with
    the instant at which the answer arrived, the instant of the call
    plus the latency of the exchange, as its timestamp. *)
Theorem refresh_stores_result ctx s :
  (∀ decoded : Response VersionResult,
     fresh (versionCache (self s)) (cacheValidity (self s)) (now s) = false →
     decodes s (envelope "getVersion" []) zero = Some decoded →
     RPCError.Code (Error decoded) = 0 →
     fst (GetVersion ctx s) = (Version (Result decoded), None) ∧
     versionCache (self (snd (GetVersion ctx s))) =
       Some {| value := Version (Result decoded);
               timestamp := now s + Z.of_N (latency (hd refused (script s))) |}) ∧
  (∀ decoded : Response string,
     fresh (healthCache (self s)) (cacheValidity (self s)) (now s) = false →
     decodes s (envelope "getHealth" []) zero = Some decoded →
     RPCError.Code (Error decoded) = 0 →
     fst (GetHealth ctx s) = (Result decoded, None) ∧
     healthCache (self (snd (GetHealth ctx s))) =
       Some {| value := Result decoded;
               timestamp := now s + Z.of_N (latency (hd refused (script s))) |}).
Proof.
  split; intros decoded Hf Hdec Hcode.
  - by apply GetVersion_refreshed.
  - by apply GetHealth_refreshed.
Qed.



(** *** More on the connection probe *)

(** X6: with a version in the cache that is younger than the TTL the probe
    succeeds at once, whatever the context (even one that is already
    done): nothing is sent, no timer is armed, no answer is consumed and
    the clock does not move. *)
Theorem TestConnection_warm_cache ctx s cv :
  versionCache (self s) = Some cv →
  time_Sub (now s) (timestamp cv) < cacheValidity (self s) →
  let s' := snd (TestConnection ctx s) in
  fst (TestConnection ctx s) = None ∧
  exchanges (trace s') = exchanges (trace s) ∧
  timers (trace s') = timers (trace s) ∧
  script s' = script s ∧ now s' = now s ∧ self s' = self s.
Proof.
  intros Hslot Hage. cbv zeta.
  rewrite TestConnection_first, TestConnection_loop_step. cbv zeta.
  rewrite GetVersion_eq, Hslot. apply Z.ltb_lt in Hage. rewrite Hage.
  cbn [fst snd].
  pose proof (after_hit_facts "Version returned from cache" s)
    as (H1 & H2 & H3 & _ & H5 & H6).
  by rewrite H1, H2, H3, H5, H6.
Qed.

Lemma wire_replicate ctx c request :
  ∃ k, (k ≤ 1)%nat ∧
    wire ctx c request =
      replicate k (post ctx (RpcUrl c) (fst (json_Marshal request))).
Proof.
  unfold wire. destruct (json_Marshal _) as [buffer [e|]];
    [|destruct (url_Parse _)].
  - exists 0%nat. split; [lia|reflexivity].
  - exists 0%nat. split; [lia|reflexivity].
  - exists 1%nat. split; [lia|reflexivity].
Qed.

(** What one fetch of the probe sends. *)
Lemma GetVersion_sends ctx s :
  let s1 := snd (GetVersion ctx s) in
  RpcUrl (self s1) = RpcUrl (self s) ∧
  cacheValidity (self s1) = cacheValidity (self s) ∧
  timers (trace s1) = timers (trace s) ∧
  ∃ k, (k ≤ 1)%nat ∧
    exchanges (trace s1) =
      exchanges (trace s) ++
      replicate k (post ctx (RpcUrl (self s))
                     (fst (json_Marshal (envelope "getVersion" [])))) ∧
    script s1 = drop k (script s).
Proof.
  pose proof (GetVersion_effect ctx s) as (Hsame & _ & Ht & Hx & Hs & _).
  cbv zeta in *. unfold same_but_versionCache in Hsame.
  destruct Hsame as (_ & Hurl & _ & _ & _ & Httl).
  split; [done|]. split; [done|]. split; [done|].
  destruct (fresh _ _ _).
  - exists 0%nat. rewrite Hx, Hs. split; [lia|done].
  - destruct (wire_replicate ctx (self s) (envelope "getVersion" []))
      as (k & Hk & Hw).
    exists k. rewrite Hx, Hs, Hw, length_replicate. done.
Qed.

Lemma TestConnection_loop_sends ctx maxRetries remaining :
  ∀ i d lastErr s,
    let s' := snd (TestConnection_loop ctx maxRetries remaining i d lastErr s) in
    RpcUrl (self s') = RpcUrl (self s) ∧
    ∃ k, (k ≤ remaining)%nat ∧
      exchanges (trace s') =
        exchanges (trace s) ++
        replicate k (post ctx (RpcUrl (self s))
                       (fst (json_Marshal (envelope "getVersion" [])))) ∧
      script s' = drop k (script s).
Proof.
  induction remaining as [|remaining IH]; intros i d lastErr s; cbv zeta.
  { cbn. split; [done|]. exists 0%nat. rewrite app_nil_r. split; [lia|done]. }
  rewrite TestConnection_loop_step. cbv zeta.
  pose proof (GetVersion_sends ctx s) as (Hurl & _ & _ & k0 & Hk0 & Hx0 & Hs0).
  cbv zeta in *.
  pose proof (warned_facts (snd (GetVersion ctx s))) as (Hw1 & _ & Hw3 & _ & Hw5 & _).
  pose proof (backoff_facts ctx d (snd (GetVersion ctx s))) as (Hb1 & Hb2 & Hb3 & _).
  assert (Hend : ∀ s', self s' = self (snd (GetVersion ctx s)) →
            script s' = script (snd (GetVersion ctx s)) →
            exchanges (trace s') = exchanges (trace (snd (GetVersion ctx s))) →
            RpcUrl (self s') = RpcUrl (self s) ∧
            ∃ k, (k ≤ S remaining)%nat ∧
              exchanges (trace s') =
                exchanges (trace s) ++
                replicate k (post ctx (RpcUrl (self s))
                               (fst (json_Marshal (envelope "getVersion" [])))) ∧
              script s' = drop k (script s)).
  { intros s' H1 H2 H3. rewrite H1, H2, H3. split; [done|].
    exists k0. split; [lia|done]. }
  assert (Hrec : ∀ i' d' e' s', self s' = self (snd (GetVersion ctx s)) →
            script s' = script (snd (GetVersion ctx s)) →
            exchanges (trace s') = exchanges (trace (snd (GetVersion ctx s))) →
            let s'' := snd (TestConnection_loop ctx maxRetries remaining i' d' e' s') in
            RpcUrl (self s'') = RpcUrl (self s) ∧
            ∃ k, (k ≤ S remaining)%nat ∧
              exchanges (trace s'') =
                exchanges (trace s) ++
                replicate k (post ctx (RpcUrl (self s))
                               (fst (json_Marshal (envelope "getVersion" [])))) ∧
              script s'' = drop k (script s)).
  { intros i' d' e' s' H1 H2 H3. cbv zeta.
    destruct (IH i' d' e' s') as (Hurl' & k & Hk & Hx & Hs).
    rewrite H1, Hurl in *. rewrite H2 in Hs. rewrite H3 in Hx.
    split; [done|]. exists (k0 + k)%nat. split; [lia|].
    rewrite Hx, Hx0, Hs, Hs0, <- app_assoc, replicate_add, drop_drop. done. }
  destruct (snd (fst (GetVersion ctx s))) as [e|]; cbn [snd].
  - destruct (i <? maxRetries - 1).
    + destruct (fst (select_Done_After _ _ _)); cbn [snd].
      * by apply Hend.
      * by apply Hrec.
    + by apply Hrec.
  - by apply Hend.
Qed.

Lemma TestConnection_loop_timers ctx maxRetries remaining :
  ∀ i d lastErr s,
    let s' := snd (TestConnection_loop ctx maxRetries remaining i d lastErr s) in
    ∃ n, (n ≤ remaining)%nat ∧ (n ≤ Z.to_nat (maxRetries - 1 - i))%nat ∧
      timers (trace s') = timers (trace s) ++ delays n d.
Proof.
  induction remaining as [|remaining IH]; intros i d lastErr s; cbv zeta.
  { exists 0%nat. cbn. rewrite app_nil_r. split; [lia|]. split; [lia|done]. }
  rewrite TestConnection_loop_step. cbv zeta.
  pose proof (GetVersion_sends ctx s) as (_ & _ & Ht & _). cbv zeta in Ht.
  pose proof (warned_facts (snd (GetVersion ctx s))) as (_ & _ & _ & _ & _ & Hw).
  pose proof (backoff_facts ctx d (snd (GetVersion ctx s))) as (_ & _ & _ & Hb).
  destruct (snd (fst (GetVersion ctx s))) as [e|]; cbn [snd].
  - destruct (Z.ltb_spec i (maxRetries - 1)).
    + destruct (fst (select_Done_After _ _ _)); cbn [snd].
      * exists 1%nat. rewrite Hb, Ht. cbn. split; [lia|]. split; [lia|done].
      * destruct (IH (i + 1) (Duration_mul d 2) (Some e)
                    (backoff ctx d (snd (GetVersion ctx s))))
          as (n & Hn1 & Hn2 & Hn).
        exists (S n). rewrite Hn, Hb, Ht, <- app_assoc. cbn.
        split; [lia|]. split; [lia|done].
    + destruct (IH (i + 1) d (Some e) (warned (snd (GetVersion ctx s))))
        as (n & Hn1 & Hn2 & Hn).
      assert (n = 0)%nat as -> by lia.
      exists 0%nat. rewrite Hn, Hw, Ht. split; [lia|]. split; [lia|done].
  - exists 0%nat. rewrite Ht. cbn. rewrite app_nil_r.
    split; [lia|]. split; [lia|done].
Qed.

(** X7: whatever the transport answers and the context does, the probe
    calls [HttpClient.Do] at most three times, each time with the same
    request, the [getVersion] POST to the client's URL, consumes one
    answer of the transport for each call, and arms no timer, the timer
    of 2s, or the timers of 2s and 4s. *)
Theorem TestConnection_bounds ctx s :
  let s' := snd (TestConnection ctx s) in
  (∃ k, (k ≤ 3)%nat ∧
     exchanges (trace s') =
       exchanges (trace s) ++
       replicate k (post ctx (RpcUrl (self s))
                      (fst (json_Marshal
                              {| Jsonrpc := "2.0"; Id := 1; Method := "getVersion";
                                 Params := [] |}))) ∧
     script s' = drop k (script s)) ∧
  (timers (trace s') = timers (trace s) ∨
   timers (trace s') = timers (trace s) ++ [2 * time_Second] ∨
   timers (trace s') = timers (trace s) ++ [2 * time_Second; 4 * time_Second]).
Proof.
  cbv zeta. rewrite TestConnection_first. split.
  - apply (TestConnection_loop_sends ctx 3 3 0 (2 * time_Second) None s).
  - destruct (TestConnection_loop_timers ctx 3 3 0 (2 * time_Second) None s)
      as (n & _ & Hn & Ht).
    change (Z.to_nat (3 - 1 - 0)) with 2%nat in Hn.
    destruct n as [|[|[|n]]]; [| | |lia].
    + left. by rewrite Ht, app_nil_r.
    + right. left. exact Ht.
    + right. right. exact Ht.
Qed.

(** When the select takes the context case, the context is done. *)
Lemma select_done_err ctx d s :
  fst (select_Done_After ctx d s) = CaseDone →
  is_Some (done_at ctx) ∧
  ctx_Err ctx (now (snd (select_Done_After ctx d s))) = Some (cause_err (cause ctx)).
Proof.
  unfold select_Done_After, ctx_Err, ctx_Done. cbv zeta.
  destruct (done_at ctx) as [tc|]; [|by intros [=]].
  destruct (Z.ltb_spec (Z.max (now s) tc) (now s + Z.max 0 d)); cbn.
  { intros _. split; [by eexists|].
    destruct (Z.leb_spec tc (Z.max (now s) tc)); [done|lia]. }
  destruct (Z.ltb_spec (now s + Z.max 0 d) (Z.max (now s) tc)); cbn;
    [by intros [=]|].
  destruct (picks s) as [|[] ps]; cbn; try by intros [=].
  intros _. split; [by eexists|].
  destruct (Z.leb_spec tc (now s + Z.max 0 d)); [done|lia].
Qed.

Lemma GetVersion_error_codec ctx s v e s' :
  GetVersion ctx s = ((v, Some e), s') →
  (∃ format ops w, e = Errorf format ops (Some w)) ∨ (∃ re, e = RPCErr re).
Proof.
  rewrite GetVersion_eq.
  pose proof (getResponse_error_shape (T:=VersionResult) ctx "getVersion" [] zero
                (missed s)) as Hshape.
  destruct (versionCache (self s)) as [cv|]; [destruct (_ <? _); [by intros [=]|]|];
    cbv zeta; destruct (snd (fst _)) as [e0|]; intros [= <- <- <-];
    exact (Hshape e0 eq_refl).
Qed.

(** X8: every run of the probe is one of six.  It returns nil exactly in
    the state in which its first, second or third fetch succeeded; it
    returns the context's error, under a context that can be done, when
    the select after the first or the second failed fetch takes the
    context case; and otherwise it returns the error that reports 3
    attempts, which wraps the very error that the third fetch returned
    (never nil: a wrapped library error or an RPC error), in the state
    that fetch left but for the warning. *)
Theorem TestConnection_result ctx s :
  let out := TestConnection ctx s in
  let cancelled (d : Duration) (s1 : St) :=
    is_Some (done_at ctx) ∧
    fst (select_Done_After ctx d (warned s1)) = CaseDone ∧
    out = (Some (cause_err (cause ctx)), backoff ctx d s1) in
  (∃ v s1, GetVersion ctx s = ((v, None), s1) ∧ out = (None, s1)) ∨
  (∃ v1 e1 s1, GetVersion ctx s = ((v1, Some e1), s1) ∧
     (cancelled (2 * time_Second) s1 ∨
      (fst (select_Done_After ctx (2 * time_Second) (warned s1)) = CaseAfter ∧
       ((∃ v s2,
           GetVersion ctx (backoff ctx (2 * time_Second) s1) = ((v, None), s2) ∧
           out = (None, s2)) ∨
        (∃ v2 e2 s2,
           GetVersion ctx (backoff ctx (2 * time_Second) s1) = ((v2, Some e2), s2) ∧
           (cancelled (4 * time_Second) s2 ∨
            (fst (select_Done_After ctx (4 * time_Second) (warned s2)) = CaseAfter ∧
             ((∃ v s3,
                 GetVersion ctx (backoff ctx (4 * time_Second) s2)
                   = ((v, None), s3) ∧
                 out = (None, s3)) ∨
              (∃ v3 e3 s3,
                 GetVersion ctx (backoff ctx (4 * time_Second) s2)
                   = ((v3, Some e3), s3) ∧
                 out = (Some (Errorf "failed to connect after %d attempts: %w"
                                [OpInt 3] (Some e3)), warned s3) ∧
                 ((∃ format ops w, e3 = Errorf format ops (Some w)) ∨
                  (∃ re, e3 = RPCErr re))))))))))).
Proof.
  cbv zeta. rewrite TestConnection_first, TestConnection_loop_step. cbv zeta.
  destruct (GetVersion ctx s) as [[v1 [e1|]] s1] eqn:H1; cbn [fst snd];
    [|left; by exists v1, s1].
  right. exists v1, e1, s1. split; [done|].
  change (0 <? 3 - 1) with true. cbv iota.
  destruct (fst (select_Done_After ctx (2 * time_Second) (warned s1))) eqn:Hsel1.
  { left. destruct (select_done_err _ _ _ Hsel1) as (Hsome & Herr).
    unfold backoff. by rewrite Herr. }
  right. split; [done|].
  rewrite second_delay, TestConnection_loop_step. cbv zeta.
  destruct (GetVersion ctx (backoff ctx (2 * time_Second) s1))
    as [[v2 [e2|]] s2] eqn:H2; cbn [fst snd];
    [|left; by exists v2, s2].
  right. exists v2, e2, s2. split; [done|].
  change (0 + 1 <? 3 - 1) with true. cbv iota.
  destruct (fst (select_Done_After ctx (4 * time_Second) (warned s2))) eqn:Hsel2.
  { left. destruct (select_done_err _ _ _ Hsel2) as (Hsome & Herr).
    unfold backoff. by rewrite Herr. }
  right. split; [done|].
  rewrite TestConnection_loop_step. cbv zeta.
  destruct (GetVersion ctx (backoff ctx (4 * time_Second) s2))
    as [[v3 [e3|]] s3] eqn:H3; cbn [fst snd];
    [|left; by exists v3, s3].
  right. exists v3, e3, s3. split; [done|].
  change (0 + 1 + 1 <? 3 - 1) with false. cbv iota.
  split; [reflexivity|]. exact (GetVersion_error_codec _ _ _ _ _ H3).
Qed.

Lemma time_Sub_diag t : time_Sub t t = 0.
Proof. unfold time_Sub. rewrite Z.sub_diag. reflexivity. Qed.

Lemma TestConnection_loop_success ctx maxRetries remaining :
  ∀ i d lastErr s,
    let out := TestConnection_loop ctx maxRetries remaining i d lastErr s in
    fst out = None → 0 < cacheValidity (self s) →
    cacheValidity (self (snd out)) = cacheValidity (self s) ∧
    fresh (versionCache (self (snd out))) (cacheValidity (self (snd out)))
      (now (snd out)) = true.
Proof.
  induction remaining as [|remaining IH]; intros i d lastErr s; cbv zeta.
  { by intros [=]. }
  rewrite TestConnection_loop_step. cbv zeta.
  destruct (GetVersion ctx s) as [[v [e1|]] s1] eqn:Hcall; cbn [fst snd].
  - pose proof (GetVersion_sends ctx s) as (_ & Httl & _). cbv zeta in Httl.
    rewrite Hcall in Httl. cbn [snd] in Httl.
    pose proof (warned_facts s1) as (Hw1 & _).
    pose proof (backoff_facts ctx d s1) as (Hb1 & _).
    assert (Hrec : ∀ i' d' s', self s' = self s1 →
      let out := TestConnection_loop ctx maxRetries remaining i' d' (Some e1) s' in
      fst out = None → 0 < cacheValidity (self s) →
      cacheValidity (self (snd out)) = cacheValidity (self s) ∧
      fresh (versionCache (self (snd out))) (cacheValidity (self (snd out)))
        (now (snd out)) = true).
    { intros i' d' s' Hself. cbv zeta. intros Hnil Hpos.
      destruct (IH i' d' (Some e1) s' Hnil) as (Hc & Hf).
      { rewrite Hself, Httl. done. }
      split; [by rewrite Hc, Hself|done]. }
    destruct (i <? maxRetries - 1); [|by apply Hrec].
    destruct (fst (select_Done_After _ _ _)) eqn:Hsel; cbn [fst snd];
      [|by apply Hrec].
    destruct (select_done_err _ _ _ Hsel) as (_ & Herr).
    unfold backoff. rewrite Herr. by intros [=].
  - intros _ Hpos.
    destruct (GetVersion_success_slot _ _ _ _ Hcall) as (Httl & Hslot).
    split; [done|]. rewrite Httl.
    destruct (fresh (versionCache (self s)) (cacheValidity (self s)) (now s)) eqn:Hf.
    + destruct Hslot as (-> & -> & _). done.
    + rewrite Hslot. unfold fresh. cbn. rewrite time_Sub_diag. by apply Z.ltb_lt.
Qed.

(** X9: a probe that returns nil leaves a version in the cache that is
    younger than the TTL (the TTL being positive, as the constructor
    makes it): the [GetVersion] that follows at once, under any context,
    returns that version without an exchange. *)
Theorem TestConnection_success_caches ctx ctx' s :
  fst (TestConnection ctx s) = None →
  0 < cacheValidity (self s) →
  let s' := snd (TestConnection ctx s) in
  ∃ cv, versionCache (self s') = Some cv ∧
    fst (GetVersion ctx' s') = (value cv, None) ∧
    exchanges (trace (snd (GetVersion ctx' s'))) = exchanges (trace s') ∧
    script (snd (GetVersion ctx' s')) = script s'.
Proof.
  intros Hnil Hpos. cbv zeta.
  rewrite TestConnection_first in *.
  destruct (TestConnection_loop_success ctx 3 3 0 (2 * time_Second) None s Hnil Hpos)
    as (_ & Hf).
  apply fresh_true in Hf. destruct Hf as (cv & Hslot & Hage).
  exists cv. split; [done|].
  pose proof (GetVersion_freshness ctx'
                (snd (TestConnection_loop ctx 3 3 0 (2 * time_Second) None s)))
    as (Hhit & _).
  by apply Hhit.
Qed.

(** *** The mutex *)

Lemma disciplined_app tr1 : ∀ m tr2,
  disciplined m (tr1 ++ tr2) =
    match disciplined m tr1 with
    | Some m' => disciplined m' tr2
    | None => None
    end.
Proof.
  induction tr1 as [|e tr1 IH]; intros m tr2; [reflexivity|].
  destruct e as [lvl msg|op|req|d]; cbn.
  - apply IH.
  - destruct (mutex_step m op); [apply IH|reflexivity].
  - destruct (is_unlocked m); [apply IH|reflexivity].
  - destruct (is_unlocked m); [apply IH|reflexivity].
Qed.

Lemma keeps_mutex_free_refl s : keeps_mutex_free s s.
Proof. exists []. by rewrite app_nil_r. Qed.

Lemma keeps_mutex_free_trans s1 s2 s3 :
  keeps_mutex_free s1 s2 → keeps_mutex_free s2 s3 → keeps_mutex_free s1 s3.
Proof.
  intros (a & Ha & Hda) (b & Hb & Hdb). exists (a ++ b).
  split; [by rewrite Hb, Ha, app_assoc|].
  by rewrite disciplined_app, Hda.
Qed.

Lemma keeps_mutex_free_added s s' added :
  trace s' = trace s ++ added → disciplined unlocked added = Some unlocked →
  keeps_mutex_free s s'.
Proof. intros. by exists added. Qed.

Lemma getResponse_mutex {T} {U : Unmarshal T} ctx method params
    (r0 : Response T) s :
  keeps_mutex_free s (snd (getResponse ctx method params r0 s)).
Proof.
  unfold getResponse. unfold_prims. cbn.
  destruct (json_Marshal _) as [buffer [e|]]; cbn;
    [apply keeps_mutex_free_refl|].
  destruct (url_Parse _) as [e|]; cbn.
  { destruct (logger (self s)); cbn;
      [by eapply keeps_mutex_free_added|apply keeps_mutex_free_refl]. }
  destruct (logger (self s)); cbn;
  destruct (reply _); cbn;
  try destruct (http.ReadAll _) as [body [e'|]]; cbn;
  try destruct (json_Unmarshal _ _) as [r [e''|]]; cbn;
  try destruct (negb _); cbn;
  (eapply keeps_mutex_free_added;
     [rewrite <- ?app_assoc; reflexivity|reflexivity]).
Qed.

Lemma missed_mutex s : keeps_mutex_free s (missed s).
Proof.
  unfold missed. unfold_prims. cbn.
  eapply keeps_mutex_free_added; [rewrite <- ?app_assoc; reflexivity|reflexivity].
Qed.

Lemma after_hit_mutex msg s : keeps_mutex_free s (after_hit msg s).
Proof.
  unfold after_hit. unfold_prims. destruct (logger (self s)); cbn;
  (eapply keeps_mutex_free_added; [rewrite <- ?app_assoc; reflexivity|reflexivity]).
Qed.

Lemma after_store_mutex set v s : keeps_mutex_free s (after_store set v s).
Proof.
  unfold after_store. unfold_prims. cbn.
  eapply keeps_mutex_free_added; [rewrite <- ?app_assoc; reflexivity|reflexivity].
Qed.

Lemma warned_mutex s : keeps_mutex_free s (warned s).
Proof.
  unfold warned. unfold_prims. destruct (logger (self s)); cbn;
    [by eapply keeps_mutex_free_added|apply keeps_mutex_free_refl].
Qed.

Lemma select_mutex ctx d s :
  keeps_mutex_free s (snd (select_Done_After ctx d s)).
Proof.
  unfold select_Done_After. cbv zeta.
  destruct (done_at ctx) as [tc|];
    [destruct (_ <? _); [|destruct (_ <? _); [|destruct (picks s) as [|[] ps]]]|];
    cbn; by eapply keeps_mutex_free_added.
Qed.

Lemma GetVersion_mutex ctx s : keeps_mutex_free s (snd (GetVersion ctx s)).
Proof.
  rewrite GetVersion_eq.
  assert (Hmiss : keeps_mutex_free s
    (snd (let r := getResponse (T:=VersionResult) ctx "getVersion" [] zero (missed s) in
          match snd (fst r) with
          | Some e => (("", Some e), snd r)
          | None =>
              let v := Version (Result (fst (fst r))) in
              ((v, None), after_store set_versionCache v (snd r))
          end))).
  { cbv zeta.
    pose proof (getResponse_mutex (T:=VersionResult) ctx "getVersion" [] zero (missed s))
      as Hg.
    destruct (snd (fst _)); cbn [snd];
      (eapply keeps_mutex_free_trans; [apply missed_mutex|]);
      [done|].
    eapply keeps_mutex_free_trans; [exact Hg|apply after_store_mutex]. }
  destruct (versionCache (self s)) as [cv|]; [destruct (_ <? _)|]; try exact Hmiss.
  apply after_hit_mutex.
Qed.

Lemma GetHealth_mutex ctx s : keeps_mutex_free s (snd (GetHealth ctx s)).
Proof.
  rewrite GetHealth_eq.
  assert (Hmiss : keeps_mutex_free s
    (snd (let r := getResponse (T:=string) ctx "getHealth" [] zero (missed s) in
          match snd (fst r) with
          | Some e => (("", Some e), snd r)
          | None =>
              let v := Result (fst (fst r)) in
              ((v, None), after_store set_healthCache v (snd r))
          end))).
  { cbv zeta.
    pose proof (getResponse_mutex (T:=string) ctx "getHealth" [] zero (missed s))
      as Hg.
    destruct (snd (fst _)); cbn [snd];
      (eapply keeps_mutex_free_trans; [apply missed_mutex|]);
      [done|].
    eapply keeps_mutex_free_trans; [exact Hg|apply after_store_mutex]. }
  destruct (healthCache (self s)) as [cv|]; [destruct (_ <? _)|]; try exact Hmiss.
  apply after_hit_mutex.
Qed.

Lemma TestConnection_loop_mutex ctx maxRetries remaining :
  ∀ i d lastErr s,
    keeps_mutex_free s
      (snd (TestConnection_loop ctx maxRetries remaining i d lastErr s)).
Proof.
  induction remaining as [|remaining IH]; intros i d lastErr s.
  { apply keeps_mutex_free_refl. }
  rewrite TestConnection_loop_step. cbv zeta.
  pose proof (GetVersion_mutex ctx s) as Hv.
  pose proof (warned_mutex (snd (GetVersion ctx s))) as Hw.
  pose proof (select_mutex ctx d (warned (snd (GetVersion ctx s)))) as Hsel.
  fold (backoff ctx d (snd (GetVersion ctx s))) in Hsel.
  assert (Hb : keeps_mutex_free s (backoff ctx d (snd (GetVersion ctx s)))).
  { eapply keeps_mutex_free_trans; [exact Hv|].
    eapply keeps_mutex_free_trans; [exact Hw|exact Hsel]. }
  destruct (snd (fst (GetVersion ctx s))); cbn [snd]; [|exact Hv].
  destruct (i <? maxRetries - 1).
  - destruct (fst (select_Done_After _ _ _)); cbn [snd]; [exact Hb|].
    eapply keeps_mutex_free_trans; [exact Hb|apply IH].
  - eapply keeps_mutex_free_trans; [exact Hv|].
    eapply keeps_mutex_free_trans; [exact Hw|apply IH].
Qed.

(** X11: every operation of the client takes and releases [cacheMutex] in
    pairs, read lock with read unlock and lock with unlock, never takes
    a lock while it holds one, ends with the mutex free, and is not
    holding it when it calls the transport or waits on a timer. *)
Theorem no_exchange_under_lock ctx s :
  keeps_mutex_free s (snd (GetVersion ctx s)) ∧
  keeps_mutex_free s (snd (GetHealth ctx s)) ∧
  keeps_mutex_free s (snd (TestConnection ctx s)) ∧
  (∀ slot, keeps_mutex_free s (snd (GetBlockTime ctx slot s))) ∧
  (∀ commitment, keeps_mutex_free s (snd (GetEpochInfo ctx commitment s))) ∧
  keeps_mutex_free s (snd (GetMinimumLedgerSlot ctx s)) ∧
  keeps_mutex_free s (snd (GetFirstAvailableBlock ctx s)).
Proof.
  split; [apply GetVersion_mutex|].
  split; [apply GetHealth_mutex|].
  split; [rewrite TestConnection_first; apply TestConnection_loop_mutex|].
  split; [intros; rewrite GetBlockTime_eq; apply getResponse_mutex|].
  split; [intros; rewrite GetEpochInfo_eq; apply getResponse_mutex|].
  split; [rewrite GetMinimumLedgerSlot_eq; apply getResponse_mutex|].
  rewrite GetFirstAvailableBlock_eq; apply getResponse_mutex.
Qed.

(** *** The logger *)

Lemma silent_app tr1 tr2 : silent (tr1 ++ tr2) = silent tr1 ++ silent tr2.
Proof.
  induction tr1 as [|e tr1 IH]; [reflexivity|].
  destruct e; cbn; by rewrite ?IH.
Qed.

Lemma getResponse_mute {T} {U : Unmarshal T} ctx method params
    (r0 : Response T) s :
  getResponse ctx method params r0 (mute s) =
    (fst (getResponse ctx method params r0 s),
     mute (snd (getResponse ctx method params r0 s))).
Proof.
  unfold getResponse, mute. unfold_prims. cbn.
  destruct (json_Marshal _) as [buffer [e|]]; cbn; [reflexivity|].
  destruct (url_Parse _) as [e|]; cbn.
  { destruct (logger (self s)); cbn; rewrite ?silent_app; cbn;
      rewrite ?app_nil_r; reflexivity. }
  destruct (logger (self s)); cbn;
  destruct (reply _); cbn;
  try destruct (http.ReadAll _) as [body [e'|]]; cbn;
  try destruct (json_Unmarshal _ _) as [r [e''|]]; cbn;
  try destruct (negb _); cbn;
  rewrite ?silent_app; cbn; rewrite ?app_nil_r; reflexivity.
Qed.

Lemma missed_mute s : missed (mute s) = mute (missed s).
Proof.
  unfold missed, mute. unfold_prims. cbn. by rewrite !silent_app.
Qed.

Lemma after_hit_mute msg s : after_hit msg (mute s) = mute (after_hit msg s).
Proof.
  unfold after_hit, mute. unfold_prims. destruct (logger (self s)); cbn;
    rewrite !silent_app; cbn; rewrite ?app_nil_r; reflexivity.
Qed.

Lemma after_store_mute_versionCache v s :
  after_store set_versionCache v (mute s) = mute (after_store set_versionCache v s).
Proof.
  unfold after_store, mute. unfold_prims. cbn. by rewrite !silent_app.
Qed.

Lemma after_store_mute_healthCache v s :
  after_store set_healthCache v (mute s) = mute (after_store set_healthCache v s).
Proof.
  unfold after_store, mute. unfold_prims. cbn. by rewrite !silent_app.
Qed.

Lemma warned_mute s : warned (mute s) = mute (warned s).
Proof.
  unfold warned, mute. unfold_prims. destruct (logger (self s)); cbn;
    rewrite ?silent_app; cbn; rewrite ?app_nil_r; reflexivity.
Qed.

Lemma select_mute ctx d s :
  select_Done_After ctx d (mute s) =
    (fst (select_Done_After ctx d s), mute (snd (select_Done_After ctx d s))).
Proof.
  unfold select_Done_After, mute. cbv zeta. cbn.
  destruct (done_at ctx) as [tc|];
    [destruct (_ <? _); [|destruct (_ <? _); [|destruct (picks s) as [|[] ps]]]|];
    cbn; rewrite silent_app; reflexivity.
Qed.

Lemma GetVersion_mute ctx s :
  GetVersion ctx (mute s) = (fst (GetVersion ctx s), mute (snd (GetVersion ctx s))).
Proof.
  rewrite !GetVersion_eq. rewrite missed_mute, getResponse_mute.
  change (versionCache (self (mute s))) with (versionCache (self s)).
  change (cacheValidity (self (mute s))) with (cacheValidity (self s)).
  change (now (mute s)) with (now s).
  assert (Hmiss :
    (let r := (fst (getResponse (T:=VersionResult) ctx "getVersion" [] zero (missed s)),
               mute (snd (getResponse (T:=VersionResult) ctx "getVersion" [] zero (missed s)))) in
     match snd (fst r) with
     | Some e => (("", Some e), snd r)
     | None => let v := Version (Result (fst (fst r))) in
               ((v, None), after_store set_versionCache v (snd r))
     end) =
    (fst (let r := getResponse (T:=VersionResult) ctx "getVersion" [] zero (missed s) in
          match snd (fst r) with
          | Some e => (("", Some e), snd r)
          | None => let v := Version (Result (fst (fst r))) in
                    ((v, None), after_store set_versionCache v (snd r))
          end),
     mute (snd (let r := getResponse (T:=VersionResult) ctx "getVersion" [] zero (missed s) in
                match snd (fst r) with
                | Some e => (("", Some e), snd r)
                | None => let v := Version (Result (fst (fst r))) in
                          ((v, None), after_store set_versionCache v (snd r))
                end)))).
  { cbv zeta. cbn [fst snd].
    destruct (getResponse (T:=VersionResult) ctx "getVersion" [] zero (missed s))
      as [[resp [e|]] s1]; cbn [fst snd]; [reflexivity|].
    by rewrite after_store_mute_versionCache. }
  destruct (versionCache (self s)) as [cv|]; [destruct (_ <? _)|]; try exact Hmiss.
  cbn [fst snd]. by rewrite after_hit_mute.
Qed.

Lemma GetHealth_mute ctx s :
  GetHealth ctx (mute s) = (fst (GetHealth ctx s), mute (snd (GetHealth ctx s))).
Proof.
  rewrite !GetHealth_eq. rewrite missed_mute, getResponse_mute.
  change (healthCache (self (mute s))) with (healthCache (self s)).
  change (cacheValidity (self (mute s))) with (cacheValidity (self s)).
  change (now (mute s)) with (now s).
  assert (Hmiss :
    (let r := (fst (getResponse (T:=string) ctx "getHealth" [] zero (missed s)),
               mute (snd (getResponse (T:=string) ctx "getHealth" [] zero (missed s)))) in
     match snd (fst r) with
     | Some e => (("", Some e), snd r)
     | None => let v := Result (fst (fst r)) in
               ((v, None), after_store set_healthCache v (snd r))
     end) =
    (fst (let r := getResponse (T:=string) ctx "getHealth" [] zero (missed s) in
          match snd (fst r) with
          | Some e => (("", Some e), snd r)
          | None => let v := Result (fst (fst r)) in
                    ((v, None), after_store set_healthCache v (snd r))
          end),
     mute (snd (let r := getResponse (T:=string) ctx "getHealth" [] zero (missed s) in
                match snd (fst r) with
                | Some e => (("", Some e), snd r)
                | None => let v := Result (fst (fst r)) in
                          ((v, None), after_store set_healthCache v (snd r))
                end)))).
  { cbv zeta. cbn [fst snd].
    destruct (getResponse (T:=string) ctx "getHealth" [] zero (missed s))
      as [[resp [e|]] s1]; cbn [fst snd]; [reflexivity|].
    by rewrite after_store_mute_healthCache. }
  destruct (healthCache (self s)) as [cv|]; [destruct (_ <? _)|]; try exact Hmiss.
  cbn [fst snd]. by rewrite after_hit_mute.
Qed.

Lemma TestConnection_loop_mute ctx maxRetries remaining :
  ∀ i d lastErr s,
    TestConnection_loop ctx maxRetries remaining i d lastErr (mute s) =
      (fst (TestConnection_loop ctx maxRetries remaining i d lastErr s),
       mute (snd (TestConnection_loop ctx maxRetries remaining i d lastErr s))).
Proof.
  induction remaining as [|remaining IH]; intros i d lastErr s; [reflexivity|].
  rewrite !TestConnection_loop_step. cbv zeta.
  rewrite GetVersion_mute. cbn [fst snd].
  destruct (snd (fst (GetVersion ctx s))) as [e|]; [|reflexivity].
  unfold backoff. rewrite !warned_mute, !select_mute. cbn [fst snd].
  destruct (i <? maxRetries - 1); [|by rewrite IH].
  destruct (fst (select_Done_After _ _ _)); [reflexivity|by rewrite IH].
Qed.

(** X12: the logger is an observer: on the same state without a logger every
    operation returns the same result and leaves the same state but for
    the log lines (the same client fields, clock, answers left, requests
    sent, timers armed and mutex operations). *)
Theorem logger_is_observer ctx s :
  (∀ T (U : Unmarshal T) method params (rpcResponse : Response T),
     getResponse ctx method params rpcResponse (mute s) =
       (fst (getResponse ctx method params rpcResponse s),
        mute (snd (getResponse ctx method params rpcResponse s)))) ∧
  (∀ slot, GetBlockTime ctx slot (mute s) =
     (fst (GetBlockTime ctx slot s), mute (snd (GetBlockTime ctx slot s)))) ∧
  (∀ commitment, GetEpochInfo ctx commitment (mute s) =
     (fst (GetEpochInfo ctx commitment s),
      mute (snd (GetEpochInfo ctx commitment s)))) ∧
  GetVersion ctx (mute s) = (fst (GetVersion ctx s), mute (snd (GetVersion ctx s))) ∧
  GetHealth ctx (mute s) = (fst (GetHealth ctx s), mute (snd (GetHealth ctx s))) ∧
  GetMinimumLedgerSlot ctx (mute s) =
    (fst (GetMinimumLedgerSlot ctx s), mute (snd (GetMinimumLedgerSlot ctx s))) ∧
  GetFirstAvailableBlock ctx (mute s) =
    (fst (GetFirstAvailableBlock ctx s),
     mute (snd (GetFirstAvailableBlock ctx s))) ∧
  TestConnection ctx (mute s) =
    (fst (TestConnection ctx s), mute (snd (TestConnection ctx s))).
Proof.
  split; [intros; apply getResponse_mute|].
  split; [intros; rewrite !GetBlockTime_eq, getResponse_mute; reflexivity|].
  split; [intros; rewrite !GetEpochInfo_eq, getResponse_mute; reflexivity|].
  split; [apply GetVersion_mute|].
  split; [apply GetHealth_mute|].
  split; [rewrite !GetMinimumLedgerSlot_eq, getResponse_mute; reflexivity|].
  split; [rewrite !GetFirstAvailableBlock_eq, getResponse_mute; reflexivity|].
  rewrite !TestConnection_first. apply TestConnection_loop_mute.
Qed.

(** X10: under a context that is already done the probe still calls
    [GetVersion] once, and only once: if that call fails the probe
    returns the context's error, not the fetch's, without the clock
    moving in the wait and without a further call of the transport; if
    it returns a value (which, the transport refusing a done context, is
    the case of a cache hit) the probe returns nil.  The error of 3
    attempts cannot come out. *)
Theorem TestConnection_context_already_done ctx s tc :
  done_at ctx = Some tc → tc ≤ now s →
  let first := GetVersion ctx s in
  let s' := snd (TestConnection ctx s) in
  (snd (fst first) = None → TestConnection ctx s = (None, snd first)) ∧
  (∀ e, snd (fst first) = Some e →
     fst (TestConnection ctx s) = Some (cause_err (cause ctx)) ∧
     now s' = now (snd first) ∧
     exchanges (trace s') = exchanges (trace (snd first)) ∧
     script s' = script (snd first)).
Proof.
  intros Hctx Hdone. cbv zeta.
  rewrite TestConnection_first, TestConnection_loop_step. cbv zeta.
  pose proof (GetVersion_effect ctx s) as (_ & _ & _ & _ & _ & Hnow & _).
  cbv zeta in Hnow.
  destruct (GetVersion ctx s) as [[v [e1|]] s1]; cbn [fst snd] in *.
  - split; [by intros [=]|]. intros e _.
    change (0 <? 3 - 1) with true. cbv iota.
    pose proof (warned_facts s1) as (_ & Hw & _).
    destruct (select_done_first ctx (2 * time_Second) (warned s1) tc)
      as (Hsel & Hclock & Herr); [done|done|rewrite Hw; unfold time_Second; lia|].
    pose proof (backoff_facts ctx (2 * time_Second) s1) as (_ & Hb2 & Hb3 & _).
    unfold backoff in *. rewrite Hsel, Herr. cbn [fst snd].
    rewrite Hclock, Hw, Hb2, Hb3. split; [done|]. split; [lia|done].
  - split; [done|]. by intros e [=].
Qed.

End Properties.

(** * The properties at work on the sample instance *)

#[local] Existing Instances Sample.runtime Sample.int64s Sample.strings
  Sample.versions Sample.epochs Sample.zero_epoch.

Lemma getResponse_error_precedence_witness :
  fst (getResponse (T:=Z) Sample.background "getBlockTime" [AnyInt64 5] zero
         (Sample.start Sample.client 0 [Sample.serves 3 "<7!>"])) =
    ({| Result := 7;
        Error := {| RPCError.Message := "Block not available";
                    RPCError.Code := -32004;
                    RPCError.Method := "getBlockTime" |} |},
     Some (RPCErr {| RPCError.Message := "Block not available";
                     RPCError.Code := -32004;
                     RPCError.Method := "getBlockTime" |})) ∧
  fst (GetBlockTime Sample.background 5
         (Sample.start Sample.client 0 [Sample.serves 3 "<7!>"])) =
    (0, Some (RPCErr {| RPCError.Message := "Block not available";
                        RPCError.Code := -32004;
                        RPCError.Method := "getBlockTime" |})) ∧
  fst (GetHealth Sample.background
         (Sample.start Sample.client 0 [Sample.serves 3 "<ok!>"])) =
    ("", Some (RPCErr {| RPCError.Message := "Node is behind";
                         RPCError.Code := -32005;
                         RPCError.Method := "getHealth" |})).
Proof.
  split; [|split].
  - destruct (getResponse_error_precedence (EpochInfo:=Sample.EpochInfo)
                Sample.background
                (Sample.start Sample.client 0 [Sample.serves 3 "<7!>"]))
      as (Hcodec & _).
    apply (Hcodec Z _ "getBlockTime" [AnyInt64 5] zero
             (Sample.rejected 7 (-32004) "Block not available"));
      [vm_compute; reflexivity | simpl; lia].
  - destruct (getResponse_error_precedence (EpochInfo:=Sample.EpochInfo)
                Sample.background
                (Sample.start Sample.client 0 [Sample.serves 3 "<7!>"]))
      as (_ & Hcall & _).
    apply (Hcall 5 (Sample.rejected 7 (-32004) "Block not available"));
      [vm_compute; reflexivity | simpl; lia].
  - destruct (getResponse_error_precedence (EpochInfo:=Sample.EpochInfo)
                Sample.background
                (Sample.start Sample.client 0 [Sample.serves 3 "<ok!>"]))
      as (_ & _ & _ & _ & _ & _ & Hcall).
    apply (Hcall (Sample.rejected "ok" (-32005) "Node is behind"));
      [reflexivity | vm_compute; reflexivity | simpl; lia].
Defined.

Lemma error_returns_zero_value_witness :
  fst (fst (GetBlockTime Sample.background 5 Sample.unreachable)) = 0 ∧
  fst (fst (GetEpochInfo Sample.background CommitmentFinalized Sample.unreachable))
    = None ∧
  fst (fst (GetVersion Sample.background Sample.unreachable)) = "" ∧
  fst (fst (GetHealth Sample.background Sample.unreachable)) = "" ∧
  fst (fst (GetMinimumLedgerSlot Sample.background Sample.unreachable)) = 0 ∧
  fst (fst (GetFirstAvailableBlock Sample.background Sample.unreachable)) = 0.
Proof.
  destruct (error_returns_zero_value (EpochInfo:=Sample.EpochInfo)
              Sample.background Sample.unreachable)
    as (H1 & H2 & H3 & H4 & H5 & H6).
  split; [eapply (H1 5); vm_compute; reflexivity|].
  split; [eapply (H2 CommitmentFinalized); vm_compute; reflexivity|].
  split; [eapply H3; vm_compute; reflexivity|].
  split; [eapply H4; vm_compute; reflexivity|].
  split; [eapply H5; vm_compute; reflexivity|].
  eapply H6; vm_compute; reflexivity.
Defined.

Lemma cache_freshness_witness :
  (* one nanosecond before the TTL has run out: the cached values *)
  fst (GetVersion Sample.background
         (Sample.start (Sample.cached 100) (100 + 60 * time_Second - 1)
            [Sample.serves 5 "<1.18.0>"])) = ("1.18.0", None) ∧
  script (snd (GetHealth Sample.background
                 (Sample.start (Sample.cached 100) (100 + 60 * time_Second - 1)
                    [Sample.serves 5 "<ok>"]))) = [Sample.serves 5 "<ok>"] ∧
  (* at exactly timestamp + TTL: a miss, and the value comes with an exchange *)
  fresh (versionCache (Sample.cached 100)) (cacheValidity (Sample.cached 100))
    (100 + 60 * time_Second) = false ∧
  script (snd (GetVersion Sample.background
                 (Sample.start (Sample.cached 100) (100 + 60 * time_Second)
                    [Sample.serves 5 "<1.18.0>"]))) = [].
Proof.
  split; [|split; [|split]].
  - destruct (cache_freshness Sample.background
                (Sample.start (Sample.cached 100) (100 + 60 * time_Second - 1)
                   [Sample.serves 5 "<1.18.0>"])) as ((Hhit & _) & _).
    apply (Hhit {| value := "1.18.0"; timestamp := 100 |});
      [reflexivity | vm_compute; reflexivity].
  - destruct (cache_freshness Sample.background
                (Sample.start (Sample.cached 100) (100 + 60 * time_Second - 1)
                   [Sample.serves 5 "<ok>"])) as (_ & (Hhit & _)).
    apply (Hhit {| value := "ok"; timestamp := 100 |});
      [reflexivity | vm_compute; reflexivity].
  - destruct (cache_freshness Sample.background
                (Sample.start (Sample.cached 100) (100 + 60 * time_Second) []))
      as ((_ & _ & _ & Hedge) & _).
    apply (Hedge {| value := "1.18.0"; timestamp := 100 |});
      [reflexivity | vm_compute; split; discriminate | reflexivity].
  - destruct (cache_freshness Sample.background
                (Sample.start (Sample.cached 100) (100 + 60 * time_Second)
                   [Sample.serves 5 "<1.18.0>"])) as ((_ & Hmiss & _) & _).
    destruct (Hmiss eq_refl) as (_ & Hvalue).
    destruct (Hvalue "1.18.0") as (_ & _ & Hscript); [vm_compute; reflexivity|].
    exact Hscript.
Defined.

Lemma failed_refresh_keeps_cache_witness :
  snd (fst (GetVersion Sample.background Sample.stale)) = Some Sample.reset ∧
  versionCache (self (snd (GetVersion Sample.background Sample.stale))) =
    Some {| value := "1.18.0"; timestamp := 100 |} ∧
  healthCache (self (snd (GetHealth Sample.background Sample.stale))) =
    Some {| value := "ok"; timestamp := 100 |}.
Proof.
  destruct (failed_refresh_keeps_cache Sample.background Sample.stale)
    as (Hversion & _ & Hhealth & _).
  edestruct Hversion as (Hcall & Hslot & _);
    [vm_compute; reflexivity | vm_compute; reflexivity |].
  edestruct Hhealth as (Hcall' & Hslot' & _);
    [vm_compute; reflexivity | vm_compute; reflexivity |].
  rewrite Hcall, Hcall'. cbn [fst snd]. rewrite Hslot, Hslot'.
  repeat split.
Defined.

Lemma typed_methods_single_attempt_witness :
  (* a hit: the transport is not used *)
  script (snd (GetVersion Sample.background Sample.warm)) = script Sample.warm ∧
  script (snd (GetHealth Sample.background Sample.warm)) = script Sample.warm ∧
  (* a miss whose exchange fails: the error comes back at once and the two
     other answers of the node are still to come *)
  GetVersion Sample.background Sample.stale =
    (("", Some Sample.reset),
     snd (getResponse (T:=VersionResult) Sample.background "getVersion" [] zero
            (missed Sample.stale))) ∧
  length (script (snd (GetHealth Sample.background Sample.stale))) = 3%nat.
Proof.
  destruct (typed_methods_single_attempt (EpochInfo:=Sample.EpochInfo)
              Sample.background Sample.warm)
    as (_ & _ & _ & _ & _ & (_ & Hhit & _) & (_ & Hhit' & _)).
  destruct (typed_methods_single_attempt (EpochInfo:=Sample.EpochInfo)
              Sample.background Sample.stale)
    as (_ & _ & _ & _ & _ & (_ & _ & Hmiss) & (_ & _ & Hmiss')).
  split; [apply Hhit; vm_compute; reflexivity|].
  split; [apply Hhit'; vm_compute; reflexivity|].
  split.
  - destruct Hmiss as (_ & _ & _ & Hsurface); [vm_compute; reflexivity|].
    apply Hsurface. vm_compute. reflexivity.
  - destruct Hmiss' as (_ & _ & Hscript & _); [vm_compute; reflexivity|].
    rewrite Hscript. vm_compute. reflexivity.
Defined.


Lemma TestConnection_cancelled_witness :
  (* cancelled one second into the first wait *)
  fst (TestConnection (Sample.cancelled_at (10 + time_Second)) Sample.unreachable) =
    Some Canceled ∧
  length (script (snd (TestConnection (Sample.cancelled_at (10 + time_Second))
                         Sample.unreachable))) = 3%nat ∧
  (* cancelled during the second wait *)
  fst (TestConnection (Sample.cancelled_at (3 * time_Second)) Sample.unreachable) =
    Some Canceled ∧
  now (snd (TestConnection (Sample.cancelled_at (3 * time_Second))
              Sample.unreachable)) = 3 * time_Second.
Proof.
  destruct (TestConnection_cancelled (Sample.cancelled_at (10 + time_Second))
              Sample.unreachable (10 + time_Second) eq_refl) as (Hfirst & _).
  destruct (TestConnection_cancelled (Sample.cancelled_at (3 * time_Second))
              Sample.unreachable (3 * time_Second) eq_refl) as (_ & Hsecond).
  edestruct Hfirst as (Hcall & _ & _ & _ & Hscript & _);
    [vm_compute; reflexivity | vm_compute; reflexivity |].
  edestruct Hsecond as (Hcall' & _ & Hnow & _);
    [vm_compute; reflexivity | vm_compute; reflexivity
    | vm_compute; reflexivity | vm_compute; reflexivity |].
  rewrite Hcall, Hcall'. cbn [fst snd]. rewrite Hscript, Hnow.
  split; [reflexivity|]. split; [vm_compute; reflexivity|].
  split; [reflexivity|]. vm_compute. reflexivity.
Defined.


(** ** Runs of the sample instance *)

(** Three dropped connections: three exchanges, the node's fourth answer
    is never asked for, and the clock shows the three latencies and the
    two waits. *)
Example probe_gives_up_after_three_exchanges :
  let s' := snd (TestConnection Sample.background Sample.unreachable) in
  length (exchanges (trace s')) = 3%nat ∧
  script s' = [Sample.serves 5 "<1.18.0>"] ∧
  now s' = 30 + 6 * time_Second ∧
  versionCache (self s') = None.
Proof. vm_compute. repeat split. Qed.

(** [getHealth] twice within a second is one exchange; a third call 61
    seconds later is a second exchange. *)
Example health_is_fetched_once_per_minute :
  let s0 := Sample.start Sample.client 0 [Sample.serves 5 "<ok>"; Sample.serves 5 "<ok>"] in
  let s1 := snd (GetHealth Sample.background s0) in
  let s2 := snd (GetHealth Sample.background (Sample.later time_Second s1)) in
  let s3 := snd (GetHealth Sample.background (Sample.later (61 * time_Second) s2)) in
  length (exchanges (trace s1)) = 1%nat ∧
  length (exchanges (trace s2)) = 1%nat ∧
  length (exchanges (trace s3)) = 2%nat ∧
  fst (GetHealth Sample.background (Sample.later time_Second s1)) = ("ok", None).
Proof. vm_compute. repeat split. Qed.

(** A body that does not decode is a decoding error, and the version
    slot stays empty. *)
Example malformed_version_leaves_slot_empty :
  let s0 := Sample.start Sample.client 0 [Sample.serves 5 "<html>"] in
  fst (GetVersion Sample.background s0) =
    ("", Some (Errorf "failed to decode response: %w" []
                 (Some (LibError "invalid character")))) ∧
  versionCache (self (snd (GetVersion Sample.background s0))) = None.
Proof. vm_compute. repeat split. Qed.

(** The request that [GetEpochInfo] hands to the transport. *)
Example epoch_info_request :
  let s' := snd (GetEpochInfo (EpochInfo:=Sample.EpochInfo) Sample.background
                   CommitmentFinalized
                   (Sample.start Sample.client 0 [Sample.serves 5 "<600/42>"])) in
  http.Body <$> exchanges (trace s') =
    [list_byte_of_string
       (Sample.render
          {| Jsonrpc := "2.0"; Id := 1; Method := "getEpochInfo";
             Params := [AnyMap {[ "commitment" := "finalized" ]}] |})] ∧
  http.Method <$> exchanges (trace s') = ["POST"] ∧
  (λ req, http.Hdr req !! "Content-Type") <$> exchanges (trace s') =
    [Some ["application/json"]].
Proof. vm_compute. repeat split. Qed.

(** ** The further properties at work on the sample instance *)

Lemma getResponse_failure_stages_witness :
  (* a URL that does not parse: the transport is not called *)
  script (snd (getResponse (T:=Z) Sample.background "getBlockTime" [AnyInt64 5] zero
                 (Sample.start (NewRPCClient None ":8899" time_Second) 0
                    [Sample.serves 3 "<7>"]))) = [Sample.serves 3 "<7>"] ∧
  (* a dropped connection *)
  fst (getResponse (T:=Z) Sample.background "getBlockTime" [AnyInt64 5] zero
         (Sample.start Sample.client 0 [Sample.drops 3])) =
    (zero, Some (Errorf "%s RPC call failed: %w" [OpString "getBlockTime"]
                   (Some (LibError "connection reset by peer")))) ∧
  (* a body that is not a response *)
  fst (getResponse (T:=Z) Sample.background "getBlockTime" [AnyInt64 5] zero
         (Sample.start Sample.client 0 [Sample.serves 3 "<html>"])) =
    (zero, Some (Errorf "failed to decode response: %w" []
                   (Some (LibError "invalid character")))).
Proof.
  split; [|split].
  - destruct (getResponse_failure_stages (T:=Z) Sample.background "getBlockTime"
                [AnyInt64 5] zero
                (Sample.start (NewRPCClient None ":8899" time_Second) 0
                   [Sample.serves 3 "<7>"])) as (_ & Hurl & _).
    destruct (Hurl (LibError "missing protocol scheme")) as (_ & _ & Hscript);
      [reflexivity | reflexivity |].
    exact Hscript.
  - destruct (getResponse_failure_stages (T:=Z) Sample.background "getBlockTime"
                [AnyInt64 5] zero (Sample.start Sample.client 0 [Sample.drops 3]))
      as (_ & _ & Hdo & _).
    destruct (Hdo (LibError "connection reset by peer")) as (Hres & _);
      [reflexivity | reflexivity | reflexivity |].
    exact Hres.
  - destruct (getResponse_failure_stages (T:=Z) Sample.background "getBlockTime"
                [AnyInt64 5] zero (Sample.start Sample.client 0 [Sample.serves 3 "<html>"]))
      as (_ & _ & _ & _ & Hdec).
    destruct (Hdec {| http.ReadAll := (list_byte_of_string "<html>", None) |}
                (list_byte_of_string "<html>") zero (LibError "invalid character"))
      as (Hres & _);
      [reflexivity | reflexivity | reflexivity | reflexivity
      | vm_compute; reflexivity |].
    exact Hres.
Defined.

Lemma typed_methods_return_decoded_result_witness :
  fst (GetBlockTime Sample.background 5
         (Sample.start Sample.client 0 [Sample.serves 3 "<7>"])) = (7, None) ∧
  fst (GetEpochInfo Sample.background CommitmentConfirmed
         (Sample.start Sample.client 0 [Sample.serves 3 "<600/42>"])) =
    (Some {| Sample.Epoch := 600; Sample.SlotIndex := 42 |}, None).
Proof.
  split.
  - destruct (typed_methods_return_decoded_result (EpochInfo:=Sample.EpochInfo)
                Sample.background (Sample.start Sample.client 0 [Sample.serves 3 "<7>"]))
      as (_ & Hcall & _).
    apply (Hcall 5 (Sample.ok 7)); [vm_compute; reflexivity | reflexivity].
  - destruct (typed_methods_return_decoded_result (EpochInfo:=Sample.EpochInfo)
                Sample.background
                (Sample.start Sample.client 0 [Sample.serves 3 "<600/42>"]))
      as (_ & _ & Hcall & _).
    apply (Hcall CommitmentConfirmed
             (Sample.ok {| Sample.Epoch := 600; Sample.SlotIndex := 42 |}));
      [vm_compute; reflexivity | reflexivity].
Defined.

Lemma refresh_stores_result_witness :
  versionCache (self (snd (GetVersion Sample.background
                             (Sample.start Sample.client 40 [Sample.serves 5 "<1.18.0>"]))))
    = Some {| value := "1.18.0"; timestamp := 45 |} ∧
  healthCache (self (snd (GetHealth Sample.background
                            (Sample.start (Sample.cached 100) (100 + 61 * time_Second)
                               [Sample.serves 5 "<ok>"]))))
    = Some {| value := "ok"; timestamp := 100 + 61 * time_Second + 5 |}.
Proof.
  split.
  - destruct (refresh_stores_result Sample.background
                (Sample.start Sample.client 40 [Sample.serves 5 "<1.18.0>"]))
      as (Hversion & _).
    destruct (Hversion (Sample.ok {| Version := "1.18.0" |})) as (_ & Hslot);
      [reflexivity | vm_compute; reflexivity | reflexivity |].
    exact Hslot.
  - destruct (refresh_stores_result Sample.background
                (Sample.start (Sample.cached 100) (100 + 61 * time_Second)
                   [Sample.serves 5 "<ok>"]))
      as (_ & Hhealth).
    destruct (Hhealth (Sample.ok "ok")) as (_ & Hslot);
      [vm_compute; reflexivity | vm_compute; reflexivity | reflexivity |].
    exact Hslot.
Defined.



Lemma TestConnection_warm_cache_witness :
  fst (TestConnection (Sample.cancelled_at 0) Sample.warm) = None ∧
  script (snd (TestConnection (Sample.cancelled_at 0) Sample.warm)) =
    script Sample.warm.
Proof.
  destruct (TestConnection_warm_cache (Sample.cancelled_at 0) Sample.warm
              {| value := "1.18.0"; timestamp := 100 |})
    as (Hnil & _ & _ & Hscript & _); [reflexivity | vm_compute; reflexivity |].
  split; [exact Hnil|exact Hscript].
Defined.

Lemma TestConnection_success_caches_witness :
  ∃ cv, versionCache (self (snd (TestConnection Sample.background Sample.flaky)))
          = Some cv ∧
        fst (GetVersion (Sample.cancelled_at 0)
               (snd (TestConnection Sample.background Sample.flaky)))
          = (value cv, None).
Proof.
  destruct (TestConnection_success_caches Sample.background (Sample.cancelled_at 0)
              Sample.flaky) as (cv & Hslot & Hread & _);
    [vm_compute; reflexivity | vm_compute; reflexivity |].
  exists cv. split; [exact Hslot|exact Hread].
Defined.

Lemma TestConnection_context_already_done_witness :
  (* the transport refuses the request at once: the probe reports the
     context's error, without waiting and with the other answers of the
     node never asked for *)
  fst (TestConnection (Sample.cancelled_at 0)
         (Sample.start Sample.client 0
            [Sample.refuses (LibError "context canceled"); Sample.serves 5 "<1.18.0>"])) = Some Canceled ∧
  now (snd (TestConnection (Sample.cancelled_at 0)
              (Sample.start Sample.client 0
                 [Sample.refuses (LibError "context canceled"); Sample.serves 5 "<1.18.0>"]))) = 0 ∧
  script (snd (TestConnection (Sample.cancelled_at 0)
                 (Sample.start Sample.client 0
                    [Sample.refuses (LibError "context canceled"); Sample.serves 5 "<1.18.0>"]))) =
    [Sample.serves 5 "<1.18.0>"] ∧
  (* a version in the cache: nil *)
  fst (TestConnection (Sample.cancelled_at 0) Sample.warm) = None.
Proof.
  destruct (TestConnection_context_already_done (Sample.cancelled_at 0)
              (Sample.start Sample.client 0
                 [Sample.refuses (LibError "context canceled"); Sample.serves 5 "<1.18.0>"]) 0 eq_refl)
    as (_ & Hfail); [vm_compute; discriminate|].
  destruct (TestConnection_context_already_done (Sample.cancelled_at 0)
              Sample.warm 0 eq_refl)
    as (Hok & _); [vm_compute; discriminate|].
  edestruct Hfail as (Hres & Hnow & _ & Hscript); [vm_compute; reflexivity|].
  rewrite Hres, Hnow, Hscript, Hok; [|vm_compute; reflexivity].
  split; [reflexivity|]. split; [vm_compute; reflexivity|].
  split; [vm_compute; reflexivity|reflexivity].
Defined.

(** A trace that calls the transport while the read lock is held does
    not keep the discipline, nor does one that takes a lock inside a
    lock, releases a lock it does not hold, or ends with a lock held;
    the trace of a refresh does. *)
Example exchange_under_read_lock_is_refused :
  disciplined unlocked
    [EvMutex RLock; EvDo (post Sample.background "http://localhost:8899" []);
     EvMutex RUnlock] = None ∧
  disciplined unlocked
    [EvMutex RLock; EvMutex RLock; EvMutex RUnlock; EvMutex RUnlock] = None ∧
  disciplined unlocked
    [EvMutex RLock; EvMutex Lock; EvMutex Unlock; EvMutex RUnlock] = None ∧
  disciplined unlocked [EvMutex RLock; EvMutex Unlock] = None ∧
  disciplined unlocked [EvMutex Lock; EvAfter (2 * time_Second); EvMutex Unlock]
    = None ∧
  disciplined unlocked [EvMutex RLock] = Some ReadHeld ∧
  disciplined unlocked
    (trace (snd (GetVersion Sample.background
                   (Sample.start Sample.client 0 [Sample.serves 5 "<1.18.0>"]))))
    = Some unlocked.
Proof. vm_compute. repeat split. Qed.
